(** * keanus_candy.models.person: Person, User and Staff

    A shallow embedding of [src/keanus_candy/models/person.py] and the
    properties of its account lifecycle: authentication, lazy cart
    creation, checkout, order history and inventory updates.

    Python objects that can be reached through more than one reference
    (the shopping cart, the order list, a candy) live in an object store
    indexed by addresses; the receiver [self] of the methods is carried
    next to the store.  A method is a function from the state before the
    call to the state after it and an outcome: a returned value or a
    raised exception.  The state after the call is kept when an exception
    is raised, as in Python. *)

From Stdlib Require Import ZArith String Ascii List Bool Lia.
From stdpp Require Import base option gmap strings list fin_maps.

Local Open Scope Z_scope.
Local Open Scope string_scope.
Local Open Scope list_scope.

(** ** Python values of the model *)

(** Addresses of objects: the identity [id(o)] of a Python object. *)
Abbreviation loc := positive.

(** A [str] is the sequence of its code points; [string] covers the code
    points U+0000 to U+00FF, of which those below U+0080 are ASCII. *)
Definition isascii (s : string) : bool :=
  forallb (fun c => (N_of_ascii c <? 128)%N) (list_ascii_of_string s).

(** Values stored in the attributes of an object of an unknown class. *)
Inductive pyval : Type :=
  | PyNone
  | PyBool (b : bool)
  | PyInt (z : Z)
  | PyStr (s : string)
  | PyRef (l : loc).

(** ** The collaborators of [person.py]

    [ShoppingCart], [Order], [Candy] and [PaymentMethod] are defined in
    other modules of the package.  [person.py] uses the constructor
    [ShoppingCart(self)], the truth value of a cart ([if not self._cart]),
    and the methods [add_item], [create_order] and [clear].  Every method
    may change the cart and may raise. *)
Class Collaborators : Type := {
  PaymentMethod : Type;
  Order : Type;
  ShoppingCart : Type;
  CartError : Type;
  (** [ShoppingCart(owner)]: a new cart. *)
  ShoppingCart_new : ShoppingCart;
  (** [bool(cart)]: [True] for every object of a class that defines
      neither [__bool__] nor [__len__]. *)
  ShoppingCart_bool : ShoppingCart -> bool;
  (** [cart.add_item(candy, quantity)] *)
  add_item : loc -> Z -> ShoppingCart -> ShoppingCart * (CartError + unit);
  (** [cart.create_order(payment_method)] *)
  create_order : PaymentMethod -> ShoppingCart -> ShoppingCart * (CartError + Order);
  (** [cart.clear()] *)
  clear : ShoppingCart -> ShoppingCart * (CartError + unit);
  (** The items a cart holds, and [order.payment_method]: what the
      specification observes of a cart and of an order. *)
  cart_items : ShoppingCart -> list (loc * Z);
  order_payment_method : Order -> PaymentMethod
}.

(** ** Exceptions and outcomes *)

Inductive exn `{Collaborators} : Type :=
  | ValueError (msg : string)
  | TypeError (msg : string)
  | Propagated (e : CartError).  (* raised inside a cart method *)

(** [Dangling]: an address that holds no object of the expected class.
    Python references never dangle; well-formed states never produce it. *)
Inductive outcome `{Collaborators} (A : Type) : Type :=
  | Return (a : A)
  | Raise (e : exn)
  | Dangling.
Arguments Return {_ _} a.
Arguments Raise {_ _} e.
Arguments Dangling {_ _}.

(** [hmac.compare_digest(a, b)] on two [str]: a constant-time equality
    test that accepts ASCII strings only and raises [TypeError] when
    either argument has a non-ASCII character. *)
Definition compare_digest `{Collaborators} (a b : string) : outcome bool :=
  if isascii a && isascii b then Return (String.eqb a b)
  else Raise (TypeError "comparing strings with non-ASCII characters is not supported").

(** ** class Person *)
Module Person.

Record t : Type := mk {
  person_id : Z;
  name : string;
  email : string;
  email_verified : bool
}.

Definition __init__ (person_id : Z) (name email : string) (email_verified : bool) : t :=
  mk person_id name email email_verified.

Definition display_info (self : t) : string :=
  (name self ++ " (" ++ email self ++ ")")%string.

Definition verify_email (self : t) : t :=
  mk (person_id self) (name self) (email self) true.

Definition update_email (new_email : string) (self : t) : t :=
  mk (person_id self) (name self) new_email false.

End Person.

(** ** The object store and the method monad *)

(** Objects with an identity: carts, lists of orders, and objects of
    classes unknown to this module, given by their attribute dictionary. *)
Inductive obj `{Collaborators} : Type :=
  | OCart (c : ShoppingCart)
  | OList (xs : list Order)
  | OObject (attrs : gmap string pyval).

Section Monad.
Context `{Collaborators}.
Variable S : Type.

(** A computation over a state [S]: the state after it and its outcome. *)
Definition M (A : Type) : Type := S -> S * outcome A.

Definition ret {A} (a : A) : M A := fun s => (s, Return a).
Definition raise {A} (e : exn) : M A := fun s => (s, Raise e).
Definition lift {A} (r : outcome A) : M A := fun s => (s, r).
Definition bind {A B} (m : M A) (k : A -> M B) : M B := fun s =>
  match m s with
  | (s', Return a) => k a s'
  | (s', Raise e) => (s', Raise e)
  | (s', Dangling) => (s', Dangling)
  end.

End Monad.
Arguments ret {_ S A} a.
Arguments raise {_ S A} e.
Arguments lift {_ S A} r.
Arguments bind {_ S A B} m k.

Declare Scope py_scope.
Delimit Scope py_scope with py.
Notation "x <- m ;; k" := (bind m (fun x => k))
  (at level 100, m at next level, right associativity) : py_scope.
Notation "m ;;; k" := (bind m (fun _ => k))
  (at level 100, right associativity) : py_scope.

(** ** class User(Person) *)
Module User.

Record t : Type := mk {
  person : Person.t;
  _password : string;
  _orders : loc;
  _cart : option loc;
  is_active : bool;
  deactivated_reason : option string
}.

Definition set_person (f : Person.t -> Person.t) (u : t) : t :=
  mk (f (person u)) (_password u) (_orders u) (_cart u) (is_active u) (deactivated_reason u).
Definition set_password (p : string) (u : t) : t :=
  mk (person u) p (_orders u) (_cart u) (is_active u) (deactivated_reason u).
Definition set_cart (c : option loc) (u : t) : t :=
  mk (person u) (_password u) (_orders u) c (is_active u) (deactivated_reason u).
Definition set_active (a : bool) (r : option string) (u : t) : t :=
  mk (person u) (_password u) (_orders u) (_cart u) a r.

Section Methods.
Context `{Collaborators}.
Local Open Scope py_scope.

(** The state a method of a [User] runs in: the object store and the
    fields of the receiver. *)
Record World : Type := mkWorld {
  heap : gmap loc obj;
  self : t
}.

Definition get_self : M World t := fun w => (w, Return (self w)).
Definition modify_self (f : t -> t) : M World unit :=
  fun w => (mkWorld (heap w) (f (self w)), Return tt).

(** [alloc o]: a new object at an address that is not in use. *)
Definition alloc (o : obj) : M World loc := fun w =>
  let l := fresh (dom (heap w)) in
  (mkWorld (<[l := o]> (heap w)) (self w), Return l).
Definition store (l : loc) (o : obj) : M World unit :=
  fun w => (mkWorld (<[l := o]> (heap w)) (self w), Return tt).
Definition load_cart (l : loc) : M World ShoppingCart := fun w =>
  match heap w !! l with
  | Some (OCart c) => (w, Return c)
  | _ => (w, Dangling)
  end.
Definition load_list (l : loc) : M World (list Order) := fun w =>
  match heap w !! l with
  | Some (OList xs) => (w, Return xs)
  | _ => (w, Dangling)
  end.

(** A call [cart.m(...)] of a cart method on the cart at address [l]:
    the cart is updated in place and an exception of the method
    propagates to the caller. *)
Definition call_cart {R} (l : loc)
    (m : ShoppingCart -> ShoppingCart * (CartError + R)) : M World R :=
  c <- load_cart l ;;
  let (c', r) := m c in
  store l (OCart c') ;;;
  match r with
  | inl e => raise (Propagated e)
  | inr x => ret x
  end.

(** [xs.append(x)] on the list at address [l]. *)
Definition list_append (l : loc) (x : Order) : M World unit :=
  xs <- load_list l ;;
  store l (OList (xs ++ [x])).

(** [User.__init__]: [_orders] is a new empty list and [_cart] is [None];
    [Person.__init__] is called with [email_verified] left at its default. *)
Definition __init__ (user_id : Z) (name email password : string) (is_active : bool)
    (h : gmap loc obj) : World :=
  let l := fresh (dom h) in
  mkWorld (<[l := OList []]> h)
          (mk (Person.__init__ user_id name email false) password l None is_active None).

(** The cart made by [_ensure_cart] when [not self._cart] holds. *)
Definition new_cart : M World loc :=
  l <- alloc (OCart ShoppingCart_new) ;;
  modify_self (set_cart (Some l)) ;;;
  ret l.

Definition _ensure_cart : M World loc :=
  u <- get_self ;;
  match _cart u with
  | None => new_cart
  | Some l =>
      c <- load_cart l ;;
      if ShoppingCart_bool c then ret l else new_cart
  end.

Definition login (email password : string) : M World bool :=
  u <- get_self ;;
  if is_active u then
    if String.eqb (Person.email (person u)) email then
      lift (compare_digest (_password u) password)
    else ret false
  else ret false.

Definition change_password (old_password new_password : string) : M World bool :=
  u <- get_self ;;
  same <- lift (compare_digest (_password u) old_password) ;;
  if negb same then ret false
  else modify_self (set_password new_password) ;;; ret true.

Definition deactivate (reason : option string) : M World unit :=
  modify_self (set_active false reason).

Definition add_to_cart (candy : loc) (quantity : Z) : M World unit :=
  cart <- _ensure_cart ;;
  call_cart cart (add_item candy quantity).

Definition checkout_cart (payment_method : PaymentMethod) (cart orders : loc) : M World Order :=
  order <- call_cart cart (create_order payment_method) ;;
  list_append orders order ;;;
  call_cart cart clear ;;;
  ret order.

Definition checkout (payment_method : PaymentMethod) : M World Order :=
  u <- get_self ;;
  match _cart u with
  | None => raise (ValueError "Cart is empty")
  | Some l =>
      c <- load_cart l ;;
      if ShoppingCart_bool c then checkout_cart payment_method l (_orders u)
      else raise (ValueError "Cart is empty")
  end.

(** [self._orders.copy()]: a new list with the same elements. *)
Definition get_orders : M World loc :=
  u <- get_self ;;
  xs <- load_list (_orders u) ;;
  alloc (OList xs).

Definition get_cart : M World (option loc) :=
  u <- get_self ;;
  ret (_cart u).

Definition order_count : M World Z :=
  u <- get_self ;;
  xs <- load_list (_orders u) ;;
  ret (Z.of_nat (length xs)).

(** Methods inherited from [Person]. *)
Definition display_info : M World string :=
  u <- get_self ;;
  ret (Person.display_info (person u)).
Definition verify_email : M World unit :=
  modify_self (set_person Person.verify_email).
Definition update_email (new_email : string) : M World unit :=
  modify_self (set_person (Person.update_email new_email)).

End Methods.
End User.

(** ** class Staff(User) *)
Module Staff.

Record t : Type := mk {
  user : User.t;
  position : string
}.

Section Methods.
Context `{Collaborators}.
Local Open Scope py_scope.

(** [Staff.__init__]: [User.__init__] with [is_active] left at its
    default [True], then the position. *)
Definition __init__ (user_id : Z) (name email password position : string)
    (h : gmap loc obj) : gmap loc obj * t :=
  let w := User.__init__ user_id name email password true h in
  (User.heap w, mk (User.self w) position).

(** [o.attr = v] on the object at address [l]. *)
Definition setattr (l : loc) (attr : string) (v : pyval) : M (gmap loc obj) unit :=
  fun h =>
    match h !! l with
    | Some (OObject attrs) => (<[l := OObject (<[attr := v]> attrs)]> h, Return tt)
    | _ => (h, Dangling)
    end.

(** [o.attr] on the object at address [l]. *)
Definition getattr (l : loc) (attr : string) (h : gmap loc obj) : option pyval :=
  match h !! l with
  | Some (OObject attrs) => attrs !! attr
  | _ => None
  end.

(** [update_inventory] reads and writes no field of [self].
    ([view_sales_report] formats a sum of floats and is not modelled.) *)
Definition update_inventory (self : t) (candy : loc) (new_quantity : Z) :
    M (gmap loc obj) unit :=
  if (new_quantity <? 0)%Z then raise (ValueError "Quantity cannot be negative")
  else setattr candy "quantity" (PyInt new_quantity).

End Methods.
End Staff.

(** ** Clients of an account *)

(** What the code around an account can do with it: call its methods, and
    call the methods of the cart through the reference that [get_cart]
    hands out. *)
Inductive call `{Collaborators} : Type :=
  | Login (email password : string)
  | ChangePassword (old_password new_password : string)
  | Deactivate (reason : option string)
  | AddToCart (candy : loc) (quantity : Z)
  | Checkout (payment_method : PaymentMethod)
  | GetOrders
  | GetCart
  | OrderCount
  | DisplayInfo
  | VerifyEmail
  | UpdateEmail (new_email : string)
  | CartMethod (m : ShoppingCart -> ShoppingCart * (CartError + unit)).
      (* user.get_cart().m(..): add_item, clear or any other cart method *)

Section Clients.
Context `{Collaborators}.
Local Open Scope py_scope.

Definition is_add_to_cart (c : call) : bool :=
  match c with AddToCart _ _ => true | _ => false end.

(** A method called on the cart that [get_cart] returns, if there is one. *)
Definition on_cart (m : ShoppingCart -> ShoppingCart * (CartError + unit)) :
    M User.World unit :=
  r <- User.get_cart ;;
  match r with
  | Some l => User.call_cart l m
  | None => ret tt
  end.

(** The state after a call; the client goes on whether the call returned
    or raised. *)
Definition exec (c : call) (w : User.World) : User.World :=
  match c with
  | Login e p => fst (User.login e p w)
  | ChangePassword o n => fst (User.change_password o n w)
  | Deactivate r => fst (User.deactivate r w)
  | AddToCart c q => fst (User.add_to_cart c q w)
  | Checkout pm => fst (User.checkout pm w)
  | GetOrders => fst (User.get_orders w)
  | GetCart => fst (User.get_cart w)
  | OrderCount => fst (User.order_count w)
  | DisplayInfo => fst (User.display_info w)
  | VerifyEmail => fst (User.verify_email w)
  | UpdateEmail e => fst (User.update_email e w)
  | CartMethod m => fst (on_cart m w)
  end.

Definition run (cs : list call) (w : User.World) : User.World :=
  fold_left (fun w c => exec c w) cs w.

(** In-place changes of the list at address [l], as a client makes them on
    a list it holds: [xs.append(x)], [xs.clear()], [xs.reverse()], ... *)
Definition list_update (l : loc) (f : list Order -> list Order) : M User.World unit :=
  xs <- User.load_list l ;;
  User.store l (OList (f xs)).

Definition mutate (l : loc) (fs : list (list Order -> list Order)) (w : User.World) :
    User.World :=
  fold_left (fun w f => fst (list_update l f w)) fs w.

(** The elements of the list at address [l]. *)
Definition elements_at (l : loc) (w : User.World) : option (list Order) :=
  match User.heap w !! l with
  | Some (OList xs) => Some xs
  | _ => None
  end.

(** The state of the cart at address [l]. *)
Definition cart_at (l : loc) (w : User.World) : option ShoppingCart :=
  match User.heap w !! l with
  | Some (OCart c) => Some c
  | _ => None
  end.

End Clients.

(** ** The cart of the specification *)

(** [ShoppingCart] and [Order] are classes of
    [keanus_candy.models.shopping], which [person.py] imports; the
    specification describes them as collaborators. *)
Module SpecCart.

(** Modelled from the spec: class [Order], absent from the sources; an
    order records the items and the payment method it was made with. *)
Record order : Type := mkOrder {
  items : list (loc * Z);
  payment_method : string
}.

Inductive error : Type :=
  | InvalidQuantity
  | EmptyCartOrder.

(** Modelled from the spec: class [ShoppingCart], absent from the
    sources; a cart accumulates items. *)
Definition cart : Type := list (loc * Z).

(** Modelled from the spec: [ShoppingCart.add_item], absent from the
    sources; the quantity must be a positive integer, a constraint
    enforced by the cart. *)
Definition add_item (candy : loc) (quantity : Z) (c : cart) : cart * (error + unit) :=
  if (quantity <=? 0)%Z then (c, inl InvalidQuantity)
  else (c ++ [(candy, quantity)], inr tt).

(** Modelled from the spec: [ShoppingCart.create_order], absent from the
    sources; it fails if the cart is empty, and the payment method is
    passed through unchanged. *)
Definition create_order (pm : string) (c : cart) : cart * (error + order) :=
  match c with
  | [] => (c, inl EmptyCartOrder)
  | _ => (c, inr (mkOrder c pm))
  end.

(** Modelled from the spec: [ShoppingCart.clear], absent from the
    sources; it resets the cart to an empty state. *)
Definition clear (c : cart) : cart * (error + unit) := ([], inr tt).

(** Modelled from the spec: the collaborators of [person.py], absent
    from the sources; the specification gives a cart no truth value of
    its own, so a cart is true as every plain object is. *)
Definition collaborators : Collaborators :=
  Build_Collaborators string order cart error [] (fun _ => true)
    add_item create_order clear (fun c => c) payment_method.

End SpecCart.

(** A password with a character outside ASCII: "caf" followed by U+00E9. *)
Definition cafe : string := ("caf" ++ String "233"%char "")%string.

(** The account of the concrete scenarios of the specification. *)
Definition alice `{Collaborators} (password : string) : User.World :=
  User.__init__ 1 "a" "a@x.com" password true ∅.

Section Deactivated.
Context `{Collaborators}.
(** [m] runs the same on an account and on the account deactivated: same
    outcome, same store, and the same fields but for the two that
    [deactivate] sets. *)
Definition ignores_active {A} (m : M User.World A) : Prop :=
  forall (reason : option string) (w : User.World),
    m (fst (User.deactivate reason w)) =
    let (w', r) := m w in (fst (User.deactivate reason w'), r).
End Deactivated.

Section Invariants.
Context `{Collaborators}.

(** [m] leaves the reference [self._cart] as it is. *)
Definition keeps_cart {A} (m : M User.World A) : Prop :=
  forall w : User.World,
    User._cart (User.self (fst (m w))) = User._cart (User.self w).

(** The references of the account point to objects of their class:
    [_orders] to a list, and [_cart], unless [None], to a cart. *)
Definition wf (w : User.World) : Prop :=
  is_Some (elements_at (User._orders (User.self w)) w)
  /\ forall l, User._cart (User.self w) = Some l -> is_Some (cart_at l w).

(** [m] keeps states well formed. *)
Definition keeps_wf {A} (m : M User.World A) : Prop :=
  forall w : User.World, wf w -> wf (fst (m w)).

End Invariants.



(** ** Concrete states *)

(** The account [alice] after [add_to_cart(candy 7, 2)], and after a
    checkout by card that follows. *)
Definition alice_shopping : @User.World SpecCart.collaborators :=
  @exec SpecCart.collaborators (@AddToCart SpecCart.collaborators 7 2) (@alice SpecCart.collaborators "secret123").
Definition alice_served : @User.World SpecCart.collaborators :=
  @exec SpecCart.collaborators (@Checkout SpecCart.collaborators "card") alice_shopping.

(** A store with one candy, of which 3 are in stock, and a clerk made
    in it. *)
Definition fudge : gmap loc (@obj SpecCart.collaborators) :=
  {[ 5%positive := @OObject SpecCart.collaborators
                     {[ "name" := PyStr "fudge"; "quantity" := PyInt 3 ]} ]}.
Definition bob : Staff.t :=
  snd (@Staff.__init__ SpecCart.collaborators 2 "b" "b@x.com" "hunter2" "clerk" fudge).
Definition candy_store : gmap loc (@obj SpecCart.collaborators) :=
  fst (@Staff.__init__ SpecCart.collaborators 2 "b" "b@x.com" "hunter2" "clerk" fudge).

Section Dangling.
Context `{Collaborators}.

Definition is_dangling {A} (r : outcome A) : bool :=
  match r with Dangling => true | _ => false end.

(** Whether a call meets an address without its object. *)
Definition dangles (c : call) (w : User.World) : bool :=
  match c with
  | Login e p => is_dangling (snd (User.login e p w))
  | ChangePassword o n => is_dangling (snd (User.change_password o n w))
  | Deactivate r => is_dangling (snd (User.deactivate r w))
  | AddToCart c q => is_dangling (snd (User.add_to_cart c q w))
  | Checkout pm => is_dangling (snd (User.checkout pm w))
  | GetOrders => is_dangling (snd (User.get_orders w))
  | GetCart => is_dangling (snd (User.get_cart w))
  | OrderCount => is_dangling (snd (User.order_count w))
  | DisplayInfo => is_dangling (snd (User.display_info w))
  | VerifyEmail => is_dangling (snd (User.verify_email w))
  | UpdateEmail e => is_dangling (snd (User.update_email e w))
  | CartMethod m => is_dangling (snd (on_cart m w))
  end.

End Dangling.

(** ** Effects of the methods *)

Section Effects.
Context `{Collaborators}.

(** [m] leaves the fields of the account as they are. *)
Definition keeps_self {A} (m : M User.World A) : Prop :=
  forall w : User.World, User.self (fst (m w)) = User.self w.

Definition is_checkout (c : call) : bool :=
  match c with Checkout _ => true | _ => false end.

(** The outcome, for the caller, of a cart method that returned or
    raised. *)
Definition raised {R} (r : CartError + R) : outcome R :=
  match r with
  | inl e => Raise (Propagated e)
  | inr x => Return x
  end.

(** An object of the store that is not the account's: neither its order
    list nor its cart. *)
Definition foreign (l : loc) (w : User.World) : Prop :=
  is_Some (User.heap w !! l)
  /\ User._orders (User.self w) <> l
  /\ User._cart (User.self w) <> Some l.

End Effects.

(** The two operations of [Person] that change it, and a sequence of
    them. *)
Inductive person_op : Type :=
  | PVerifyEmail
  | PUpdateEmail (new_email : string).

Definition person_exec (o : person_op) (p : Person.t) : Person.t :=
  match o with
  | PVerifyEmail => Person.verify_email p
  | PUpdateEmail new_email => Person.update_email new_email p
  end.

Definition person_run (os : list person_op) (p : Person.t) : Person.t :=
  fold_left (fun p o => person_exec o p) os p.

(** The address that the last [PUpdateEmail] of a sequence set, if any. *)
Fixpoint last_email (os : list person_op) (e : string) : string :=
  match os with
  | [] => e
  | PVerifyEmail :: os' => last_email os' e
  | PUpdateEmail e' :: os' => last_email os' e'
  end.

(** Whether the email is verified after a sequence, given whether it was
    before. *)
Fixpoint last_verified (os : list person_op) (v : bool) : bool :=
  match os with
  | [] => v
  | PVerifyEmail :: os' => last_verified os' true
  | PUpdateEmail _ :: os' => last_verified os' false
  end.

(** The number of [checkout] calls in a sequence. *)
Definition checkouts `{Collaborators} (cs : list call) : nat :=
  length (List.filter is_checkout cs).

(** ** Other carts *)

(** Two more cart classes that fit [person.py], for the examples: they
    differ from the cart of the specification in one method each. *)
Module OtherCarts.

(** A cart class that defines [__len__] as the number of its items: an
    empty cart is false in a condition. *)
Definition with_len : Collaborators :=
  Build_Collaborators string SpecCart.order SpecCart.cart SpecCart.error []
    (fun c => negb (Nat.eqb (length c) 0))
    SpecCart.add_item SpecCart.create_order SpecCart.clear
    (fun c => c) SpecCart.payment_method.

(** A cart class whose [clear] raises and leaves the items. *)
Definition failing_clear : Collaborators :=
  Build_Collaborators string SpecCart.order SpecCart.cart SpecCart.error []
    (fun _ => true)
    SpecCart.add_item SpecCart.create_order
    (fun c => (c, inl SpecCart.InvalidQuantity))
    (fun c => c) SpecCart.payment_method.

End OtherCarts.

(** * Properties *)

(** ** Person *)

(** C5: after [update_email] the verified flag is false, whatever the new
    address: also when the email was verified just before, and also when
    the new address is the current one. *)
Theorem update_email_resets_verified (p : Person.t) (new_email : string) :
  Person.email_verified (Person.update_email new_email p) = false
  /\ Person.email_verified (Person.update_email new_email (Person.verify_email p)) = false
  /\ Person.email_verified (Person.update_email (Person.email p) p) = false.
Proof. repeat split. Qed.

Section UserFacts.
Context `{Collaborators}.

(** The same on an account, through the inherited methods. *)
Lemma User_update_email_resets_verified (w : User.World) (new_email : string) :
  let w' := fst (User.update_email new_email (fst (User.verify_email w))) in
  Person.email_verified (User.person (User.self w')) = false
  /\ Person.email (User.person (User.self w')) = new_email
  /\ User.heap w' = User.heap w.
Proof. repeat split. Qed.

(** ** Authentication *)

(** [login] changes nothing, and its outcome is that of the short-circuit
    conjunction of the source. *)
Lemma login_unfold (email password : string) (w : User.World) :
  User.login email password w =
  (w, if User.is_active (User.self w) then
        if String.eqb (Person.email (User.person (User.self w))) email then
          compare_digest (User._password (User.self w)) password
        else Return false
      else Return false).
Proof.
  unfold User.login, bind, User.get_self, lift, ret.
  destruct (User.is_active (User.self w)); [|reflexivity].
  destruct (String.eqb _ email); reflexivity.
Qed.

Lemma compare_digest_ascii (a b : string) :
  isascii a = true -> isascii b = true ->
  compare_digest a b = Return (String.eqb a b).
Proof. intros Ha Hb. unfold compare_digest. rewrite Ha, Hb. reflexivity. Qed.

Lemma compare_digest_non_ascii (a b : string) :
  isascii a && isascii b = false ->
  exists msg, compare_digest a b = Raise (TypeError msg).
Proof. intros Hab. unfold compare_digest. rewrite Hab. eauto. Qed.

(** An inactive account never logs in, and [login] does not even compare
    the passwords. *)
Lemma login_inactive (email password : string) (w : User.World) :
  User.is_active (User.self w) = false ->
  User.login email password w = (w, Return false).
Proof. intros Hact. rewrite login_unfold, Hact. reflexivity. Qed.

(** With ASCII passwords [login] returns the conjunction of the three
    tests. *)
Lemma login_ascii (email password : string) (w : User.World) :
  isascii (User._password (User.self w)) = true -> isascii password = true ->
  User.login email password w =
  (w, Return (User.is_active (User.self w)
              && String.eqb (Person.email (User.person (User.self w))) email
              && String.eqb (User._password (User.self w)) password)).
Proof.
  intros Hs Hp. rewrite login_unfold, compare_digest_ascii by assumption.
  destruct (User.is_active _), (String.eqb (Person.email _) email); reflexivity.
Qed.

(** C3: [login] on an active account whose stored password has a
    character outside ASCII raises [TypeError] when the email and the
    password are the stored ones, where the specification has it return true
    and never raise. *)
Theorem login_non_ascii_raises :
  User.login "a@x.com" cafe (alice cafe) =
  (alice cafe,
   Raise (TypeError "comparing strings with non-ASCII characters is not supported")).
Proof. reflexivity. Qed.

(** ** Changing the password *)

Lemma change_password_unfold (old_password new_password : string) (w : User.World) :
  User.change_password old_password new_password w =
  match compare_digest (User._password (User.self w)) old_password with
  | Return true =>
      (User.mkWorld (User.heap w) (User.set_password new_password (User.self w)),
       Return true)
  | Return false => (w, Return false)
  | Raise e => (w, Raise e)
  | Dangling => (w, Dangling)
  end.
Proof.
  unfold User.change_password, bind, User.get_self, lift, ret, User.modify_self.
  destruct (compare_digest _ old_password) as [[|]| |]; reflexivity.
Qed.

(** With ASCII passwords a wrong old password changes nothing and gives
    false, the right one replaces the stored password and gives true. *)
Lemma change_password_ascii (old_password new_password : string) (w : User.World) :
  isascii (User._password (User.self w)) = true -> isascii old_password = true ->
  User.change_password old_password new_password w =
  if String.eqb (User._password (User.self w)) old_password
  then (User.mkWorld (User.heap w) (User.set_password new_password (User.self w)),
        Return true)
  else (w, Return false).
Proof.
  intros Hs Ho. rewrite change_password_unfold, compare_digest_ascii by assumption.
  destruct (String.eqb _ old_password); reflexivity.
Qed.

(** [change_password] never changes anything but the stored password. *)
Lemma change_password_frame (old_password new_password : string) (w : User.World) :
  let w' := fst (User.change_password old_password new_password w) in
  w' = w \/ w' = User.mkWorld (User.heap w) (User.set_password new_password (User.self w)).
Proof.
  simpl. rewrite change_password_unfold.
  destruct (compare_digest _ old_password) as [[|]| |]; simpl; auto.
Qed.

(** C7: [change_password] with a wrong old password on an account whose
    stored password has a character outside ASCII raises [TypeError]
    (leaving the account unchanged), where the specification has it
    return false. *)
Theorem change_password_non_ascii_raises :
  User.change_password "wrong" "new" (alice cafe) =
  (alice cafe,
   Raise (TypeError "comparing strings with non-ASCII characters is not supported")).
Proof. reflexivity. Qed.

(** C10: a password change to a password with a character outside ASCII
    returns true, and the login with the new password that follows raises
    [TypeError], where the specification has it return true. *)
Theorem change_password_then_login_raises :
  let (w, changed) := User.change_password "secret123" cafe (alice "secret123") in
  changed = Return true
  /\ User._password (User.self w) = cafe
  /\ snd (User.login "a@x.com" cafe w) =
     Raise (TypeError "comparing strings with non-ASCII characters is not supported")
  /\ snd (User.login "a@x.com" "secret123" w) =
     Raise (TypeError "comparing strings with non-ASCII characters is not supported").
Proof. repeat split. Qed.

(** X5: with ASCII passwords the round trip holds: after a password
    change that returned true, an active account logs in with the new
    password and with no other. *)
Lemma change_password_login_ascii (old_password new_password : string) (w w' : User.World) :
  User.is_active (User.self w) = true ->
  isascii new_password = true ->
  User.change_password old_password new_password w = (w', Return true) ->
  let e := Person.email (User.person (User.self w)) in
  User.login e new_password w' = (w', Return true)
  /\ forall c, isascii c = true -> c <> new_password ->
       User.login e c w' = (w', Return false).
Proof.
  intros Hact Hnew Hch e. subst e.
  assert (w' = User.mkWorld (User.heap w)
                 (User.set_password new_password (User.self w))) as ->.
  { rewrite change_password_unfold in Hch.
    destruct (compare_digest _ old_password) as [[|]| |]; congruence. }
  split.
  - rewrite login_ascii by assumption. simpl.
    rewrite Hact, !String.eqb_refl. reflexivity.
  - intros c Hc Hne. rewrite login_ascii by assumption. simpl.
    rewrite Hact, String.eqb_refl.
    destruct (String.eqb_spec new_password c); [congruence | reflexivity].
Qed.

End UserFacts.

(** ** Deactivation *)

Section Deactivation.
Context `{Collaborators}.

Lemma ignores_ret {A} (a : A) : ignores_active (ret a).
Proof. intros r w. reflexivity. Qed.

Lemma ignores_raise {A} (e : exn) : ignores_active (@raise _ _ A e).
Proof. intros r w. reflexivity. Qed.

Lemma ignores_bind {A B} (m : M User.World A) (k : A -> M User.World B) :
  ignores_active m -> (forall a, ignores_active (k a)) -> ignores_active (bind m k).
Proof.
  intros Hm Hk r w. unfold bind. rewrite Hm.
  destruct (m w) as [w' [a|e|]]; [apply Hk | reflexivity | reflexivity].
Qed.

(** Reading [self] is harmless when what is done with it does not depend
    on the two fields. *)
Lemma ignores_get_self {A} (k : User.t -> M User.World A) :
  (forall u, ignores_active (k u)) ->
  (forall a r u, k (User.set_active a r u) = k u) ->
  ignores_active (bind User.get_self k).
Proof.
  intros Hk Hu r w. unfold bind, User.get_self. simpl.
  rewrite Hu. apply Hk.
Qed.

Lemma ignores_alloc (o : obj) : ignores_active (User.alloc o).
Proof. intros r w. reflexivity. Qed.

Lemma ignores_store (l : loc) (o : obj) : ignores_active (User.store l o).
Proof. intros r w. reflexivity. Qed.

Lemma ignores_load_cart (l : loc) : ignores_active (User.load_cart l).
Proof.
  intros r w. unfold User.load_cart. simpl.
  destruct (User.heap w !! l) as [[c|xs|attrs]|]; reflexivity.
Qed.

Lemma ignores_load_list (l : loc) : ignores_active (User.load_list l).
Proof.
  intros r w. unfold User.load_list. simpl.
  destruct (User.heap w !! l) as [[c|xs|attrs]|]; reflexivity.
Qed.

Lemma ignores_set_cart (c : option loc) : ignores_active (User.modify_self (User.set_cart c)).
Proof. intros r w. reflexivity. Qed.

Lemma ignores_call_cart {R} (l : loc) (m : ShoppingCart -> ShoppingCart * (CartError + R)) :
  ignores_active (User.call_cart l m).
Proof.
  unfold User.call_cart. apply ignores_bind; [apply ignores_load_cart|].
  intros c. destruct (m c) as [c' [e|x]];
    (apply ignores_bind; [apply ignores_store | intros _]).
  - apply ignores_raise.
  - apply ignores_ret.
Qed.

Lemma ignores_list_append (l : loc) (x : Order) : ignores_active (User.list_append l x).
Proof.
  unfold User.list_append. apply ignores_bind; [apply ignores_load_list|].
  intros xs. apply ignores_store.
Qed.

Lemma ignores_new_cart : ignores_active User.new_cart.
Proof.
  unfold User.new_cart. apply ignores_bind; [apply ignores_alloc|]. intros l.
  apply ignores_bind; [apply ignores_set_cart|]. intros _. apply ignores_ret.
Qed.

Lemma ignores__ensure_cart : ignores_active User._ensure_cart.
Proof.
  unfold User._ensure_cart. apply ignores_get_self; [|reflexivity].
  intros u. destruct (User._cart u) as [l|]; [|apply ignores_new_cart].
  apply ignores_bind; [apply ignores_load_cart|]. intros c.
  destruct (ShoppingCart_bool c); [apply ignores_ret | apply ignores_new_cart].
Qed.

Lemma ignores_add_to_cart (candy : loc) (quantity : Z) :
  ignores_active (User.add_to_cart candy quantity).
Proof.
  unfold User.add_to_cart. apply ignores_bind; [apply ignores__ensure_cart|].
  intros l. apply ignores_call_cart.
Qed.

Lemma ignores_checkout (pm : PaymentMethod) : ignores_active (User.checkout pm).
Proof.
  unfold User.checkout. apply ignores_get_self; [|reflexivity].
  intros u. destruct (User._cart u) as [l|]; [|apply ignores_raise].
  apply ignores_bind; [apply ignores_load_cart|]. intros c.
  destruct (ShoppingCart_bool c); [|apply ignores_raise].
  unfold User.checkout_cart.
  apply ignores_bind; [apply ignores_call_cart|]. intros o.
  apply ignores_bind; [apply ignores_list_append|]. intros _.
  apply ignores_bind; [apply ignores_call_cart|]. intros _.
  apply ignores_ret.
Qed.

(** C6: deactivation gates [login] only.  [add_to_cart] and [checkout]
    on the deactivated account have the outcome they have on the account
    as it was, and leave the store and the fields they would leave there
    (the account staying deactivated); [login] returns false. *)
Theorem deactivate_gates_login_only (reason : option string) (w : User.World) :
  (forall candy quantity,
     User.add_to_cart candy quantity (fst (User.deactivate reason w)) =
     let (w', r) := User.add_to_cart candy quantity w in
     (fst (User.deactivate reason w'), r))
  /\ (forall pm,
     User.checkout pm (fst (User.deactivate reason w)) =
     let (w', r) := User.checkout pm w in
     (fst (User.deactivate reason w'), r))
  /\ (forall email password,
     snd (User.login email password (fst (User.deactivate reason w))) = Return false).
Proof.
  split; [|split].
  - intros candy quantity. apply ignores_add_to_cart.
  - intros pm. apply ignores_checkout.
  - intros email password. rewrite login_inactive; reflexivity.
Qed.
End Deactivation.

(** ** The cart reference *)

Section CartReference.
Context `{Collaborators}.

Lemma keeps_cart_ret {A} (a : A) : keeps_cart (ret a).
Proof. intros w. reflexivity. Qed.

Lemma keeps_cart_raise {A} (e : exn) : keeps_cart (@raise _ _ A e).
Proof. intros w. reflexivity. Qed.

Lemma keeps_cart_lift {A} (r : outcome A) : keeps_cart (lift r).
Proof. intros w. reflexivity. Qed.

Lemma keeps_cart_bind {A B} (m : M User.World A) (k : A -> M User.World B) :
  keeps_cart m -> (forall a, keeps_cart (k a)) -> keeps_cart (bind m k).
Proof.
  intros Hm Hk w. unfold bind. specialize (Hm w).
  destruct (m w) as [w' [a|e|]]; simpl in *; [|assumption..].
  rewrite Hk. assumption.
Qed.

Lemma keeps_cart_get_self : keeps_cart User.get_self.
Proof. intros w. reflexivity. Qed.

Lemma keeps_cart_modify_self (f : User.t -> User.t) :
  (forall u, User._cart (f u) = User._cart u) -> keeps_cart (User.modify_self f).
Proof. intros Hf w. apply Hf. Qed.

Lemma keeps_cart_alloc (o : obj) : keeps_cart (User.alloc o).
Proof. intros w. reflexivity. Qed.

Lemma keeps_cart_store (l : loc) (o : obj) : keeps_cart (User.store l o).
Proof. intros w. reflexivity. Qed.

Lemma keeps_cart_load_cart (l : loc) : keeps_cart (User.load_cart l).
Proof.
  intros w. unfold User.load_cart.
  destruct (User.heap w !! l) as [[c|xs|attrs]|]; reflexivity.
Qed.

Lemma keeps_cart_load_list (l : loc) : keeps_cart (User.load_list l).
Proof.
  intros w. unfold User.load_list.
  destruct (User.heap w !! l) as [[c|xs|attrs]|]; reflexivity.
Qed.

Lemma keeps_cart_call_cart {R} (l : loc)
    (m : ShoppingCart -> ShoppingCart * (CartError + R)) :
  keeps_cart (User.call_cart l m).
Proof.
  unfold User.call_cart. apply keeps_cart_bind; [apply keeps_cart_load_cart|].
  intros c. destruct (m c) as [c' [e|x]];
    (apply keeps_cart_bind; [apply keeps_cart_store | intros _]).
  - apply keeps_cart_raise.
  - apply keeps_cart_ret.
Qed.

Lemma keeps_cart_list_append (l : loc) (x : Order) : keeps_cart (User.list_append l x).
Proof.
  unfold User.list_append. apply keeps_cart_bind; [apply keeps_cart_load_list|].
  intros xs. apply keeps_cart_store.
Qed.

Create HintDb keeps_cart.
#[local] Hint Resolve keeps_cart_ret keeps_cart_raise keeps_cart_lift keeps_cart_get_self
  keeps_cart_alloc keeps_cart_store keeps_cart_load_cart keeps_cart_load_list
  keeps_cart_call_cart keeps_cart_list_append : keeps_cart.

Ltac keeps_cart :=
  repeat first
    [ progress eauto 2 with keeps_cart
    | apply keeps_cart_bind; [|intros ?]
    | apply keeps_cart_modify_self; reflexivity
    | match goal with
      | |- keeps_cart (match ?x with _ => _ end) => destruct x
      | |- keeps_cart (if ?x then _ else _) => destruct x
      end ].

Lemma keeps_cart_login (email password : string) : keeps_cart (User.login email password).
Proof. unfold User.login. keeps_cart. Qed.

Lemma keeps_cart_change_password (o n : string) : keeps_cart (User.change_password o n).
Proof. unfold User.change_password. keeps_cart. Qed.

Lemma keeps_cart_deactivate (reason : option string) : keeps_cart (User.deactivate reason).
Proof. unfold User.deactivate. keeps_cart. Qed.

Lemma keeps_cart_checkout (pm : PaymentMethod) : keeps_cart (User.checkout pm).
Proof. unfold User.checkout, User.checkout_cart. keeps_cart. Qed.

Lemma keeps_cart_get_orders : keeps_cart User.get_orders.
Proof. unfold User.get_orders. keeps_cart. Qed.

Lemma keeps_cart_get_cart : keeps_cart User.get_cart.
Proof. unfold User.get_cart. keeps_cart. Qed.

Lemma keeps_cart_order_count : keeps_cart User.order_count.
Proof. unfold User.order_count. keeps_cart. Qed.

Lemma keeps_cart_display_info : keeps_cart User.display_info.
Proof. unfold User.display_info. keeps_cart. Qed.

Lemma keeps_cart_verify_email : keeps_cart User.verify_email.
Proof. unfold User.verify_email. keeps_cart. Qed.

Lemma keeps_cart_update_email (e : string) : keeps_cart (User.update_email e).
Proof. unfold User.update_email. keeps_cart. Qed.

Lemma keeps_cart_on_cart (m : ShoppingCart -> ShoppingCart * (CartError + unit)) :
  keeps_cart (on_cart m).
Proof. unfold on_cart, User.get_cart. keeps_cart. Qed.

(** Every call but [add_to_cart] leaves [_cart] as it is. *)
Lemma exec_keeps_cart (c : call) (w : User.World) :
  is_add_to_cart c = false ->
  User._cart (User.self (exec c w)) = User._cart (User.self w).
Proof.
  destruct c; intros Hc; try discriminate; cbn [exec].
  - apply keeps_cart_login.
  - apply keeps_cart_change_password.
  - apply keeps_cart_deactivate.
  - apply keeps_cart_checkout.
  - apply keeps_cart_get_orders.
  - apply keeps_cart_get_cart.
  - apply keeps_cart_order_count.
  - apply keeps_cart_display_info.
  - apply keeps_cart_verify_email.
  - apply keeps_cart_update_email.
  - apply keeps_cart_on_cart.
Qed.

(** [new_cart] sets [_cart] to the address of the cart it makes. *)
Lemma new_cart_unfold (w : User.World) :
  let l := fresh (dom (User.heap w)) in
  User.new_cart w =
  (User.mkWorld (<[l := OCart ShoppingCart_new]> (User.heap w))
                (User.set_cart (Some l) (User.self w)),
   Return l).
Proof. reflexivity. Qed.

(** [add_to_cart] always leaves a cart reference behind, also when the
    cart method raises. *)
Lemma add_to_cart_is_Some (candy : loc) (quantity : Z) (w : User.World) :
  is_Some (User._cart (User.self (fst (User.add_to_cart candy quantity w)))).
Proof.
  unfold User.add_to_cart, bind.
  assert (forall l w', is_Some (User._cart (User.self w')) ->
            is_Some (User._cart (User.self
              (fst (User.call_cart l (add_item candy quantity) w'))))) as Hcall.
  { intros l w' Hw'. rewrite keeps_cart_call_cart. assumption. }
  assert (forall w', is_Some (User._cart (User.self (fst (User.new_cart w'))))) as Hnew.
  { intros w'. rewrite new_cart_unfold. simpl. eauto. }
  destruct (User._ensure_cart w) as [w' r] eqn:He.
  assert (is_Some (User._cart (User.self w'))) as Hw'.
  { revert He. unfold User._ensure_cart, bind, User.get_self.
    destruct (User._cart (User.self w)) as [l|] eqn:Hl.
    - unfold User.load_cart.
      destruct (User.heap w !! l) as [[c|xs|attrs]|];
        try (intros [= <- <-]; rewrite Hl; eauto).
      destruct (ShoppingCart_bool c).
      + intros [= <- <-]. rewrite Hl. eauto.
      + intros He. specialize (Hnew w). rewrite He in Hnew. assumption.
    - intros He. specialize (Hnew w). rewrite He in Hnew. assumption. }
  destruct r as [l|e|]; simpl; [apply Hcall|..]; assumption.
Qed.

Section Truthy.
(** A cart is true in a condition, as every object is whose class
    defines neither [__bool__] nor [__len__]. *)
Hypothesis cart_truthy : forall c : ShoppingCart, ShoppingCart_bool c = true.

(** With a cart in place [_ensure_cart] makes no new one. *)
Lemma _ensure_cart_reuses (w : User.World) (l : loc) :
  User._cart (User.self w) = Some l ->
  User._ensure_cart w = (w, Return l) \/ User._ensure_cart w = (w, Dangling).
Proof.
  intros Hl. unfold User._ensure_cart, bind, User.get_self. rewrite Hl.
  unfold User.load_cart.
  destruct (User.heap w !! l) as [[c|xs|attrs]|]; auto.
  rewrite cart_truthy. auto.
Qed.

Lemma add_to_cart_reuses (candy : loc) (quantity : Z) (w : User.World) (l : loc) :
  User._cart (User.self w) = Some l ->
  User._cart (User.self (fst (User.add_to_cart candy quantity w))) = Some l
  /\ dom (User.heap (fst (User.add_to_cart candy quantity w))) = dom (User.heap w).
Proof.
  intros Hl. unfold User.add_to_cart, bind.
  destruct (_ensure_cart_reuses w l Hl) as [-> | ->]; [|auto].
  split; [rewrite keeps_cart_call_cart; assumption|].
  unfold User.call_cart, bind, User.load_cart.
  destruct (User.heap w !! l) as [[c|xs|attrs]|] eqn:Hc; try reflexivity.
  destruct (add_item candy quantity c) as [c' [e|[]]]; simpl;
    apply dom_insert_lookup_L; eauto.
Qed.

(** Once set, [_cart] is never set again. *)
Lemma exec_cart_stable (c : call) (w : User.World) (l : loc) :
  User._cart (User.self w) = Some l -> User._cart (User.self (exec c w)) = Some l.
Proof.
  intros Hl. destruct (is_add_to_cart c) eqn:Hc.
  - destruct c; try discriminate. cbn [exec]. apply add_to_cart_reuses. assumption.
  - rewrite exec_keeps_cart; assumption.
Qed.

Lemma run_cart_stable (cs : list call) (w : User.World) (l : loc) :
  User._cart (User.self w) = Some l -> User._cart (User.self (run cs w)) = Some l.
Proof.
  revert w. induction cs as [|c cs IH]; intros w Hl; simpl; [assumption|].
  apply IH, exec_cart_stable, Hl.
Qed.

End Truthy.

Lemma run_keeps_cart (cs : list call) (w : User.World) :
  existsb is_add_to_cart cs = false ->
  User._cart (User.self (run cs w)) = User._cart (User.self w).
Proof.
  revert w. induction cs as [|c cs IH]; intros w Hcs; simpl in *; [reflexivity|].
  apply orb_false_iff in Hcs as [Hc Hcs].
  rewrite IH, exec_keeps_cart; auto.
Qed.


(** A cart method that raises raises its own exception, not the
    [ValueError] of [checkout]. *)
Lemma call_cart_outcome {R} (l : loc)
    (m : ShoppingCart -> ShoppingCart * (CartError + R)) (w : User.World) :
  match snd (User.call_cart l m w) with
  | Raise (Propagated _) | Return _ | Dangling => True
  | Raise _ => False
  end.
Proof.
  unfold User.call_cart, bind, User.load_cart.
  destruct (User.heap w !! l) as [[c|xs|attrs]|]; simpl; try exact I.
  destruct (m c) as [c' [e|x]]; exact I.
Qed.

Lemma checkout_cart_outcome (pm : PaymentMethod) (l orders : loc) (w : User.World) :
  match snd (User.checkout_cart pm l orders w) with
  | Raise (Propagated _) | Return _ | Dangling => True
  | Raise _ => False
  end.
Proof.
  unfold User.checkout_cart, bind.
  pose proof (call_cart_outcome l (create_order pm) w) as H1.
  destruct (User.call_cart l (create_order pm) w) as [w1 [o|[]|]]; simpl in *; try done.
  unfold User.list_append at 1, bind, User.load_list.
  destruct (User.heap w1 !! orders) as [[c|xs|attrs]|]; simpl; try exact I.
  match goal with |- context [User.call_cart l clear ?w2] =>
    pose proof (call_cart_outcome l clear w2) as H2;
    destruct (User.call_cart l clear w2) as [w3 [[]|[]|]] end; simpl in *; done.
Qed.

Section LazyCart.
Hypothesis cart_truthy : forall c : ShoppingCart, ShoppingCart_bool c = true.

(** [checkout] raises its "Cart is empty" error exactly when [_cart] is
    [None]. *)
Lemma checkout_empty_cart_iff_None (pm : PaymentMethod) (w : User.World) :
  snd (User.checkout pm w) = Raise (ValueError "Cart is empty")
  <-> User._cart (User.self w) = None.
Proof.
  unfold User.checkout, bind, User.get_self. simpl.
  destruct (User._cart (User.self w)) as [l|]; [|split; reflexivity].
  split; [|discriminate]. unfold User.load_cart.
  destruct (User.heap w !! l) as [[c|xs|attrs]|]; simpl; try discriminate.
  rewrite cart_truthy. intros Hv.
  pose proof (checkout_cart_outcome pm l (User._orders (User.self w)) w) as Ho.
  rewrite Hv in Ho. destruct Ho.
Qed.

(** A use of the account that calls [add_to_cart] leaves a cart
    reference behind. *)
Lemma run_cart_is_Some (cs : list call) (w : User.World) :
  existsb is_add_to_cart cs = true -> is_Some (User._cart (User.self (run cs w))).
Proof.
  intros Hcs. apply existsb_exists in Hcs as (c & Hin & Hc).
  apply in_split in Hin as (cs1 & cs2 & ->).
  unfold run. rewrite fold_left_app. simpl. fold (run cs1 w).
  destruct c; try discriminate. cbn [exec].
  destruct (add_to_cart_is_Some candy quantity (run cs1 w)) as [l Hl].
  fold (run cs2 (User.add_to_cart candy quantity (run cs1 w)).1).
  rewrite (run_cart_stable cart_truthy _ _ l Hl). eauto.
Qed.

(** C1: on an account made by [User.__init__] and used in any way,
    [checkout] fails with the "Cart is empty" error exactly when
    [add_to_cart] was never called: in particular not after the cart was
    made and then cleared, by a checkout or through [get_cart]. *)
Theorem checkout_empty_cart_iff_never_added
    (user_id : Z) (name email password : string) (is_active : bool)
    (h : gmap loc obj) (cs : list call) (pm : PaymentMethod) :
  snd (User.checkout pm (run cs (User.__init__ user_id name email password is_active h)))
    = Raise (ValueError "Cart is empty")
  <-> existsb is_add_to_cart cs = false.
Proof.
  rewrite checkout_empty_cart_iff_None.
  set (w0 := User.__init__ user_id name email password is_active h).
  destruct (existsb is_add_to_cart cs) eqn:Hcs.
  - split; [|discriminate]. intros Hnone.
    destruct (run_cart_is_Some cs w0 Hcs) as [l Hl]. congruence.
  - split; [reflexivity|]. intros _. rewrite run_keeps_cart by assumption. reflexivity.
Qed.

(** C4: the cart that the first [add_to_cart] leaves in [_cart] is the
    cart of the account from then on: whatever is done with the account
    afterwards, [_cart] refers to it, and a later [add_to_cart] uses it
    and makes no new object. *)
Theorem add_to_cart_reuses_cart
    (w : User.World) (candy1 : loc) (quantity1 : Z) (cs : list call)
    (candy2 : loc) (quantity2 : Z) :
  let w1 := fst (User.add_to_cart candy1 quantity1 w) in
  let w2 := run cs w1 in
  let w3 := fst (User.add_to_cart candy2 quantity2 w2) in
  exists l : loc,
    User._cart (User.self w1) = Some l
    /\ User._cart (User.self w2) = Some l
    /\ User._cart (User.self w3) = Some l
    /\ fst (User._ensure_cart w2) = w2
    /\ dom (User.heap w3) = dom (User.heap w2).
Proof.
  intros w1 w2 w3.
  destruct (add_to_cart_is_Some candy1 quantity1 w) as [l Hl]. fold w1 in Hl.
  assert (User._cart (User.self w2) = Some l) as Hl2
    by (apply run_cart_stable; assumption).
  exists l. split; [assumption|]. split; [assumption|].
  destruct (add_to_cart_reuses cart_truthy candy2 quantity2 w2 l Hl2) as [H3 Hdom].
  split; [assumption|]. split; [|assumption].
  destruct (_ensure_cart_reuses cart_truthy w2 l Hl2) as [-> | ->]; reflexivity.
Qed.

End LazyCart.

End CartReference.

(** ** Well-formed states *)

Section WellFormed.
Context `{Collaborators}.

Lemma elements_at_insert_ne (l l' : loc) (o : obj) (h : gmap loc obj) (u : User.t) :
  l <> l' ->
  elements_at l' (User.mkWorld (<[l := o]> h) u) = elements_at l' (User.mkWorld h u).
Proof. intros Hne. unfold elements_at. simpl. rewrite lookup_insert_ne; done. Qed.

Lemma cart_at_insert_ne (l l' : loc) (o : obj) (h : gmap loc obj) (u : User.t) :
  l <> l' ->
  cart_at l' (User.mkWorld (<[l := o]> h) u) = cart_at l' (User.mkWorld h u).
Proof. intros Hne. unfold cart_at. simpl. rewrite lookup_insert_ne; done. Qed.

(** No address holds both a list and a cart. *)
Lemma list_is_no_cart (l l' : loc) (w : User.World) :
  is_Some (elements_at l w) -> is_Some (cart_at l' w) -> l <> l'.
Proof.
  unfold elements_at, cart_at. intros [xs Hxs] [c Hc] <-.
  destruct (User.heap w !! l) as [[?|?|?]|]; discriminate.
Qed.

Lemma fresh_not_allocated (h : gmap loc obj) : h !! fresh (dom h) = None.
Proof. apply not_elem_of_dom, is_fresh. Qed.

(** A new object at a fresh address. *)
Lemma wf_alloc (o : obj) (w : User.World) : wf w -> wf (fst (User.alloc o w)).
Proof.
  intros [Hlist Hcart]. unfold User.alloc. simpl.
  pose proof (fresh_not_allocated (User.heap w)) as Hfresh.
  split; simpl.
  - rewrite elements_at_insert_ne; [destruct w; exact Hlist|].
    intros Heq. unfold elements_at in Hlist. rewrite <- Heq, Hfresh in Hlist.
    destruct Hlist; discriminate.
  - intros l Hl. specialize (Hcart l Hl).
    rewrite cart_at_insert_ne; [destruct w; exact Hcart|].
    intros Heq. unfold cart_at in Hcart. rewrite <- Heq, Hfresh in Hcart.
    destruct Hcart; discriminate.
Qed.

(** A cart written over a cart. *)
Lemma wf_store_cart (l : loc) (c' : ShoppingCart) (w : User.World) :
  is_Some (cart_at l w) -> wf w -> wf (fst (User.store l (OCart c') w)).
Proof.
  intros Hc [Hlist Hcart]. unfold User.store. split; simpl.
  - rewrite elements_at_insert_ne; [destruct w; exact Hlist|].
    intros ->. eapply list_is_no_cart; eauto.
  - intros l' Hl'. destruct (decide (l = l')) as [<-|Hne].
    + unfold cart_at. simpl. rewrite lookup_insert_eq. eauto.
    + rewrite cart_at_insert_ne by assumption. destruct w; auto.
Qed.

(** A list written over a list. *)
Lemma wf_store_list (l : loc) (xs' : list Order) (w : User.World) :
  is_Some (elements_at l w) -> wf w -> wf (fst (User.store l (OList xs') w)).
Proof.
  intros Hxs [Hlist Hcart]. unfold User.store. split; simpl.
  - destruct (decide (l = User._orders (User.self w))) as [->|Hne].
    + unfold elements_at. simpl. rewrite lookup_insert_eq. eauto.
    + rewrite elements_at_insert_ne by assumption. destruct w; auto.
  - intros l' Hl'. specialize (Hcart l' Hl').
    rewrite cart_at_insert_ne; [destruct w; exact Hcart|].
    eapply list_is_no_cart; eauto.
Qed.

Lemma wf_modify_self (f : User.t -> User.t) (w : User.World) :
  (forall u, User._orders (f u) = User._orders u) ->
  (forall u, User._cart (f u) = User._cart u) ->
  wf w -> wf (fst (User.modify_self f w)).
Proof.
  intros Ho Hc [Hlist Hcart]. unfold User.modify_self. split; simpl.
  - rewrite Ho. destruct w; exact Hlist.
  - intros l. rewrite Hc. intros Hl. specialize (Hcart l Hl). destruct w; exact Hcart.
Qed.

Lemma keeps_wf_bind {A B} (m : M User.World A) (k : A -> M User.World B) :
  keeps_wf m -> (forall a, keeps_wf (k a)) -> keeps_wf (bind m k).
Proof.
  intros Hm Hk w Hw. unfold bind. specialize (Hm w Hw).
  destruct (m w) as [w' [a|e|]]; simpl in *; [|assumption..].
  apply Hk. assumption.
Qed.

Lemma keeps_wf_pure {A} (m : M User.World A) :
  (forall w, fst (m w) = w) -> keeps_wf m.
Proof. intros Hm w Hw. rewrite Hm. assumption. Qed.

Lemma keeps_wf_call_cart {R} (l : loc)
    (m : ShoppingCart -> ShoppingCart * (CartError + R)) :
  keeps_wf (User.call_cart l m).
Proof.
  intros w Hw. unfold User.call_cart, bind, User.load_cart.
  destruct (User.heap w !! l) as [[c|?|?]|] eqn:Hl; simpl; try assumption.
  assert (is_Some (cart_at l w)) as Hc by (unfold cart_at; rewrite Hl; eauto).
  destruct (m c) as [c' [e|x]]; simpl; apply (wf_store_cart l c' w Hc Hw).
Qed.

Lemma keeps_wf_list_update (l : loc) (f : list Order -> list Order) :
  keeps_wf (list_update l f).
Proof.
  intros w Hw. unfold list_update, bind, User.load_list.
  destruct (User.heap w !! l) as [[?|xs|?]|] eqn:Hl; simpl; try assumption.
  apply wf_store_list; [|assumption]. unfold elements_at. rewrite Hl. eauto.
Qed.

Lemma keeps_wf_list_append (l : loc) (x : Order) : keeps_wf (User.list_append l x).
Proof. apply (keeps_wf_list_update l (fun xs => xs ++ [x])). Qed.

Lemma keeps_wf_new_cart : keeps_wf User.new_cart.
Proof.
  intros w [Hlist Hcart]. rewrite new_cart_unfold. simpl.
  pose proof (fresh_not_allocated (User.heap w)) as Hfresh.
  split; simpl.
  - rewrite elements_at_insert_ne; [destruct w; exact Hlist|].
    intros Heq. unfold elements_at in Hlist. rewrite <- Heq, Hfresh in Hlist.
    destruct Hlist; discriminate.
  - intros l [= <-]. unfold cart_at. simpl. rewrite lookup_insert_eq. eauto.
Qed.

Lemma keeps_wf__ensure_cart : keeps_wf User._ensure_cart.
Proof.
  intros w Hw. unfold User._ensure_cart, bind, User.get_self.
  destruct (User._cart (User.self w)) as [l|]; [|apply keeps_wf_new_cart, Hw].
  unfold User.load_cart.
  destruct (User.heap w !! l) as [[c|?|?]|]; simpl; try assumption.
  destruct (ShoppingCart_bool c); [assumption | apply keeps_wf_new_cart, Hw].
Qed.

Lemma keeps_wf_add_to_cart (candy : loc) (quantity : Z) :
  keeps_wf (User.add_to_cart candy quantity).
Proof.
  unfold User.add_to_cart. apply keeps_wf_bind; [apply keeps_wf__ensure_cart|].
  intros l. apply keeps_wf_call_cart.
Qed.

Lemma keeps_wf_checkout (pm : PaymentMethod) : keeps_wf (User.checkout pm).
Proof.
  intros w Hw. unfold User.checkout, bind, User.get_self.
  destruct (User._cart (User.self w)) as [l|]; [|assumption].
  unfold User.load_cart.
  destruct (User.heap w !! l) as [[c|?|?]|]; simpl; try assumption.
  destruct (ShoppingCart_bool c); [|assumption].
  generalize (User._orders (User.self w)). intros orders.
  revert w Hw. change (keeps_wf (User.checkout_cart pm l orders)).
  unfold User.checkout_cart.
  apply keeps_wf_bind; [apply keeps_wf_call_cart|]. intros o.
  apply keeps_wf_bind; [apply keeps_wf_list_append|]. intros _.
  apply keeps_wf_bind; [apply keeps_wf_call_cart|]. intros _.
  apply keeps_wf_pure. reflexivity.
Qed.

Lemma keeps_wf_get_orders : keeps_wf User.get_orders.
Proof.
  intros w Hw. unfold User.get_orders, bind, User.get_self, User.load_list.
  destruct (User.heap w !! _) as [[?|xs|?]|]; simpl; try assumption.
  apply (wf_alloc (OList xs) w Hw).
Qed.

Lemma keeps_wf_on_cart (m : ShoppingCart -> ShoppingCart * (CartError + unit)) :
  keeps_wf (on_cart m).
Proof.
  intros w Hw. unfold on_cart, User.get_cart, bind, User.get_self, ret.
  destruct (User._cart (User.self w)) as [l|]; [|assumption].
  apply keeps_wf_call_cart, Hw.
Qed.

Lemma login_pure (email password : string) (w : User.World) :
  fst (User.login email password w) = w.
Proof. rewrite login_unfold. reflexivity. Qed.

(** Every call keeps the state well formed. *)
Lemma exec_wf (c : call) (w : User.World) : wf w -> wf (exec c w).
Proof.
  intros Hw. destruct c; cbn [exec].
  - rewrite login_pure. assumption.
  - destruct (change_password_frame old_password new_password w) as [-> | ->];
      [assumption|]. apply (wf_modify_self _ w); auto.
  - apply (wf_modify_self _ w); auto.
  - apply keeps_wf_add_to_cart, Hw.
  - apply keeps_wf_checkout, Hw.
  - apply keeps_wf_get_orders, Hw.
  - assumption.
  - unfold User.order_count, bind, User.get_self, User.load_list.
    destruct (User.heap w !! _) as [[?|xs|?]|]; simpl; assumption.
  - assumption.
  - apply (wf_modify_self _ w); auto.
  - apply (wf_modify_self _ w); auto.
  - apply keeps_wf_on_cart, Hw.
Qed.

Lemma run_wf (cs : list call) (w : User.World) : wf w -> wf (run cs w).
Proof.
  revert w. induction cs as [|c cs IH]; intros w Hw; simpl; [assumption|].
  apply IH, exec_wf, Hw.
Qed.

(** [User.__init__] makes a well-formed state. *)
Lemma init_wf (user_id : Z) (name email password : string) (is_active : bool)
    (h : gmap loc obj) :
  wf (User.__init__ user_id name email password is_active h).
Proof.
  unfold User.__init__. split; simpl.
  - unfold elements_at. simpl. rewrite lookup_insert_eq. eauto.
  - discriminate.
Qed.

End WellFormed.

(** ** Checkout *)

Section Checkout.
Context `{Collaborators}.

(** A call of a cart method that returns. *)
Lemma call_cart_returns {R} (l : loc)
    (m : ShoppingCart -> ShoppingCart * (CartError + R))
    (w : User.World) (c c' : ShoppingCart) (x : R) :
  User.heap w !! l = Some (OCart c) -> m c = (c', inr x) ->
  User.call_cart l m w =
  (User.mkWorld (<[l := OCart c']> (User.heap w)) (User.self w), Return x).
Proof.
  intros Hl Hm. unfold User.call_cart, bind, User.load_cart. rewrite Hl, Hm.
  reflexivity.
Qed.

(** A call of a cart method that raises: the cart keeps what the method
    did to it. *)
Lemma call_cart_raises {R} (l : loc)
    (m : ShoppingCart -> ShoppingCart * (CartError + R))
    (w : User.World) (c c' : ShoppingCart) (e : CartError) :
  User.heap w !! l = Some (OCart c) -> m c = (c', inl e) ->
  User.call_cart l m w =
  (User.mkWorld (<[l := OCart c']> (User.heap w)) (User.self w),
   Raise (Propagated e)).
Proof.
  intros Hl Hm. unfold User.call_cart, bind, User.load_cart. rewrite Hl, Hm.
  reflexivity.
Qed.

Lemma list_append_returns (l : loc) (x : Order) (w : User.World) (xs : list Order) :
  User.heap w !! l = Some (OList xs) ->
  User.list_append l x w =
  (User.mkWorld (<[l := OList (xs ++ [x])]> (User.heap w)) (User.self w), Return tt).
Proof.
  intros Hl. unfold User.list_append, bind, User.load_list. rewrite Hl. reflexivity.
Qed.

Lemma order_count_returns (w : User.World) (xs : list Order) :
  elements_at (User._orders (User.self w)) w = Some xs ->
  User.order_count w = (w, Return (Z.of_nat (length xs))).
Proof.
  unfold elements_at, User.order_count, bind, User.get_self, User.load_list. simpl.
  destruct (User.heap w !! _) as [[?|ys|?]|]; try discriminate.
  intros [= ->]. reflexivity.
Qed.

Lemma elements_at_Some (l : loc) (w : User.World) (xs : list Order) :
  elements_at l w = Some xs <-> User.heap w !! l = Some (OList xs).
Proof.
  unfold elements_at. destruct (User.heap w !! l) as [[?|ys|?]|];
    split; intros Heq; try discriminate; congruence.
Qed.

Lemma cart_at_Some (l : loc) (w : User.World) (c : ShoppingCart) :
  cart_at l w = Some c <-> User.heap w !! l = Some (OCart c).
Proof.
  unfold cart_at. destruct (User.heap w !! l) as [[?|ys|?]|];
    split; intros Heq; try discriminate; congruence.
Qed.

(** [checkout] when the cart makes an order and [clear] returns: the
    state afterwards and the order returned. *)
Lemma checkout_returns (pm : PaymentMethod) (w : User.World) (l : loc)
    (c c1 c2 : ShoppingCart) (o : Order) (xs : list Order) :
  User._cart (User.self w) = Some l ->
  cart_at l w = Some c ->
  ShoppingCart_bool c = true ->
  elements_at (User._orders (User.self w)) w = Some xs ->
  create_order pm c = (c1, inr o) ->
  clear c1 = (c2, inr tt) ->
  User.checkout pm w =
  (User.mkWorld
     (<[l := OCart c2]>
        (<[User._orders (User.self w) := OList (xs ++ [o])]>
           (<[l := OCart c1]> (User.heap w))))
     (User.self w),
   Return o).
Proof.
  intros Hl Hc Hb Hxs Hcreate Hclear.
  assert (User._orders (User.self w) <> l) as Hne
    by (eapply list_is_no_cart; [rewrite Hxs | rewrite Hc]; eauto).
  apply cart_at_Some in Hc. apply elements_at_Some in Hxs.
  unfold User.checkout, bind at 1, User.get_self. rewrite Hl.
  unfold bind at 1, User.load_cart. rewrite Hc, Hb.
  unfold User.checkout_cart, bind.
  rewrite (call_cart_returns l _ w c c1 o Hc Hcreate).
  erewrite list_append_returns; [|simpl; rewrite lookup_insert_ne; [exact Hxs|congruence]].
  erewrite call_cart_returns; [reflexivity| |exact Hclear].
  simpl. rewrite lookup_insert_ne by assumption. apply lookup_insert_eq.
Qed.

Section CartContract.
(** The contract of the cart in the specification: [clear] returns and
    leaves no item, and an order carries the payment method that
    [create_order] was given. *)
Hypothesis clear_empties :
  forall c : ShoppingCart, exists c', clear c = (c', inr tt) /\ cart_items c' = [].
Hypothesis create_order_payment :
  forall (pm : PaymentMethod) (c c' : ShoppingCart) (o : Order),
    create_order pm c = (c', inr o) -> order_payment_method o = pm.

(** C2 (amended): on an account that has a cart, when the cart's
    [create_order] returns for the payment method (a cart of the
    specification: when it is not empty), [checkout] returns; the order
    it returns is the one [create_order] made, it is appended to the
    history, whose length grows by one, its payment method is the one
    given, and the cart is empty afterwards. *)
Theorem checkout_appends_order_and_clears
    (pm : PaymentMethod) (w : User.World) (l : loc)
    (c c1 : ShoppingCart) (o : Order) (xs : list Order) :
  User._cart (User.self w) = Some l ->
  cart_at l w = Some c ->
  ShoppingCart_bool c = true ->
  elements_at (User._orders (User.self w)) w = Some xs ->
  create_order pm c = (c1, inr o) ->
  exists w' : User.World,
    User.checkout pm w = (w', Return o)
    /\ User.self w' = User.self w
    /\ elements_at (User._orders (User.self w')) w' = Some (xs ++ [o])
    /\ snd (User.order_count w) = Return (Z.of_nat (length xs))
    /\ snd (User.order_count w') = Return (Z.of_nat (length xs) + 1)
    /\ (exists c2, cart_at l w' = Some c2 /\ cart_items c2 = [])
    /\ order_payment_method o = pm.
Proof.
  intros Hl Hc Hb Hxs Hcreate.
  destruct (clear_empties c1) as (c2 & Hclear & Hempty).
  assert (User._orders (User.self w) <> l) as Hne
    by (eapply list_is_no_cart; [rewrite Hxs | rewrite Hc]; eauto).
  set (w' := User.mkWorld
               (<[l := OCart c2]>
                  (<[User._orders (User.self w) := OList (xs ++ [o])]>
                     (<[l := OCart c1]> (User.heap w))))
               (User.self w)).
  assert (elements_at (User._orders (User.self w')) w' = Some (xs ++ [o])) as Hxs'.
  { apply elements_at_Some. simpl.
    rewrite lookup_insert_ne by congruence. apply lookup_insert_eq. }
  exists w'. split; [eapply checkout_returns; eassumption|].
  split; [reflexivity|].
  split; [exact Hxs'|].
  split; [rewrite (order_count_returns w xs Hxs); reflexivity|].
  split.
  { rewrite (order_count_returns w' (xs ++ [o]) Hxs'). simpl.
    rewrite length_app. simpl. f_equal. lia. }
  split; [|eapply create_order_payment; eassumption].
  exists c2. split; [|assumption].
  apply cart_at_Some. simpl. apply lookup_insert_eq.
Qed.

End CartContract.

(** After any use of a new account that called [add_to_cart], the account
    has a cart and its order list. *)
Lemma run_has_cart (cart_truthy : forall c : ShoppingCart, ShoppingCart_bool c = true)
    (user_id : Z) (name email password : string) (is_active : bool)
    (h : gmap loc obj) (cs : list call) :
  existsb is_add_to_cart cs = true ->
  let w := run cs (User.__init__ user_id name email password is_active h) in
  exists l c xs,
    User._cart (User.self w) = Some l
    /\ cart_at l w = Some c
    /\ elements_at (User._orders (User.self w)) w = Some xs.
Proof.
  intros Hcs w.
  destruct (run_wf cs _ (init_wf user_id name email password is_active h))
    as [[xs Hxs] Hcart]. fold w in Hxs, Hcart.
  destruct (run_cart_is_Some cart_truthy cs
              (User.__init__ user_id name email password is_active h) Hcs) as [l Hl].
  fold w in Hl. destruct (Hcart l Hl) as [c Hc]. eauto 10.
Qed.

End Checkout.

(** ** The order history *)

Section OrderHistory.
Context `{Collaborators}.

(** A change of the list at [l] leaves every other object and the fields
    of the account as they are. *)
Lemma list_update_frame (l : loc) (f : list Order -> list Order) (w : User.World) :
  User.self (fst (list_update l f w)) = User.self w
  /\ forall l', l' <> l ->
       User.heap (fst (list_update l f w)) !! l' = User.heap w !! l'.
Proof.
  unfold list_update, bind, User.load_list, User.store.
  destruct (User.heap w !! l) as [[?|xs|?]|]; simpl; split; try reflexivity.
  intros l' Hne. apply lookup_insert_ne. congruence.
Qed.

Lemma mutate_frame (l : loc) (fs : list (list Order -> list Order)) (w : User.World) :
  User.self (mutate l fs w) = User.self w
  /\ forall l', l' <> l -> User.heap (mutate l fs w) !! l' = User.heap w !! l'.
Proof.
  revert w. induction fs as [|f fs IH]; intros w; simpl; [split; reflexivity|].
  destruct (IH (fst (list_update l f w))) as [IHself IHheap].
  destruct (list_update_frame l f w) as [Hself Hheap].
  split; [congruence|]. intros l' Hne. rewrite IHheap, Hheap; auto.
Qed.

(** The changes are made: the list at [l] after [mutate] is the list
    before with the changes applied in turn. *)
Lemma mutate_elements (l : loc) (fs : list (list Order -> list Order))
    (w : User.World) (xs : list Order) :
  elements_at l w = Some xs ->
  elements_at l (mutate l fs w) = Some (fold_left (fun ys f => f ys) fs xs).
Proof.
  revert w xs. induction fs as [|f fs IH]; intros w xs Hxs; simpl; [assumption|].
  apply IH. apply elements_at_Some in Hxs.
  unfold list_update, bind, User.load_list, User.store. rewrite Hxs. simpl.
  apply elements_at_Some. simpl. apply lookup_insert_eq.
Qed.

(** [get_orders] on a well-formed account: a new list object with the
    elements of [_orders]. *)
Lemma get_orders_returns (w : User.World) (xs : list Order) :
  elements_at (User._orders (User.self w)) w = Some xs ->
  let l := fresh (dom (User.heap w)) in
  User.get_orders w =
  (User.mkWorld (<[l := OList xs]> (User.heap w)) (User.self w), Return l).
Proof.
  intros Hxs l. apply elements_at_Some in Hxs.
  unfold User.get_orders, bind, User.get_self, User.load_list. rewrite Hxs.
  reflexivity.
Qed.

(** C8: [get_orders] returns a list of its own with the elements of the
    history in their order.  Whatever is done to the returned list, in
    place, the history of the account keeps its elements, and a later
    [get_orders] returns them again. *)
Theorem get_orders_is_independent_copy (w : User.World) (xs : list Order) :
  elements_at (User._orders (User.self w)) w = Some xs ->
  exists (l : loc) (w' : User.World),
    User.get_orders w = (w', Return l)
    /\ l <> User._orders (User.self w)
    /\ User.heap w !! l = None
    /\ User.self w' = User.self w
    /\ elements_at l w' = Some xs
    /\ elements_at (User._orders (User.self w')) w' = Some xs
    /\ forall fs : list (list Order -> list Order),
         let w'' := mutate l fs w' in
         elements_at l w'' = Some (fold_left (fun ys f => f ys) fs xs)
         /\ elements_at (User._orders (User.self w'')) w'' = Some xs
         /\ exists l2 w3,
              User.get_orders w'' = (w3, Return l2)
              /\ elements_at l2 w3 = Some xs.
Proof.
  intros Hxs. pose proof (fresh_not_allocated (User.heap w)) as Hfresh.
  set (l := fresh (dom (User.heap w))) in *.
  set (w' := User.mkWorld (<[l := OList xs]> (User.heap w)) (User.self w)).
  assert (l <> User._orders (User.self w)) as Hne.
  { intros Heq. apply elements_at_Some in Hxs. congruence. }
  assert (elements_at l w' = Some xs) as Hl'
    by (apply elements_at_Some; simpl; apply lookup_insert_eq).
  assert (elements_at (User._orders (User.self w')) w' = Some xs) as Hxs'.
  { apply elements_at_Some. simpl. rewrite lookup_insert_ne by assumption.
    apply elements_at_Some. assumption. }
  exists l, w'. split; [apply get_orders_returns; assumption|].
  do 5 (split; [first [assumption | reflexivity]|]).
  intros fs w''. destruct (mutate_frame l fs w') as [Hself Hheap]. fold w'' in Hself, Hheap.
  assert (elements_at (User._orders (User.self w'')) w'' = Some xs) as Hxs''.
  { apply elements_at_Some. rewrite Hself, Hheap by (simpl; congruence).
    apply elements_at_Some. assumption. }
  split; [apply mutate_elements; assumption|]. split; [assumption|].
  eexists _, _. split; [apply get_orders_returns; eassumption|].
  apply elements_at_Some. simpl. apply lookup_insert_eq.
Qed.

End OrderHistory.

(** ** Inventory *)

Section Inventory.
Context `{Collaborators}.

(** C9: [update_inventory] raises its [ValueError] exactly when the new
    quantity is negative, and then changes nothing; otherwise it sets the
    attribute [quantity] of the candy to the new quantity and leaves its
    other attributes.  With [-1] it raises, with [0] the quantity is 0. *)
Theorem update_inventory_checks_quantity
    (self : Staff.t) (candy : loc) (new_quantity : Z)
    (h : gmap loc obj) (attrs : gmap string pyval) :
  h !! candy = Some (OObject attrs) ->
  ((exists e, snd (Staff.update_inventory self candy new_quantity h) = Raise e)
     <-> new_quantity < 0)
  /\ (new_quantity < 0 ->
      Staff.update_inventory self candy new_quantity h =
      (h, Raise (ValueError "Quantity cannot be negative")))
  /\ (0 <= new_quantity ->
      Staff.update_inventory self candy new_quantity h =
      (<[candy := OObject (<["quantity" := PyInt new_quantity]> attrs)]> h, Return tt))
  /\ snd (Staff.update_inventory self candy (-1) h)
       = Raise (ValueError "Quantity cannot be negative")
  /\ (let h' := fst (Staff.update_inventory self candy 0 h) in
      snd (Staff.update_inventory self candy 0 h) = Return tt
      /\ Staff.getattr candy "quantity" h' = Some (PyInt 0)).
Proof.
  intros Hcandy.
  assert (Staff.update_inventory self candy (-1) h =
          (h, Raise (ValueError "Quantity cannot be negative"))) as Hminus
    by reflexivity.
  assert (Staff.update_inventory self candy 0 h =
          (<[candy := OObject (<["quantity" := PyInt 0]> attrs)]> h, Return tt)) as Hzero
    by (unfold Staff.update_inventory, Staff.setattr; simpl; rewrite Hcandy; reflexivity).
  rewrite Hminus, Hzero. unfold Staff.update_inventory, Staff.setattr, Staff.getattr, raise.
  destruct (Z.ltb_spec new_quantity 0) as [Hneg|Hpos]; rewrite ?Hcandy; simpl.
  - repeat split; try lia; eauto.
    rewrite lookup_insert_eq. apply lookup_insert_eq.
  - repeat split; try lia.
    + intros [e He]. discriminate.
    + rewrite lookup_insert_eq. apply lookup_insert_eq.
Qed.

End Inventory.

(** ** References never dangle *)

Section NoDangling.
Context `{Collaborators}.

Lemma call_cart_self {R} (l : loc)
    (m : ShoppingCart -> ShoppingCart * (CartError + R)) (w : User.World) :
  User.self (fst (User.call_cart l m w)) = User.self w.
Proof.
  unfold User.call_cart, bind, User.load_cart.
  destruct (User.heap w !! l) as [[c|?|?]|]; try reflexivity.
  destruct (m c) as [c' [e|x]]; reflexivity.
Qed.

Lemma call_cart_no_dangling {R} (l : loc)
    (m : ShoppingCart -> ShoppingCart * (CartError + R)) (w : User.World) :
  is_Some (cart_at l w) -> is_dangling (snd (User.call_cart l m w)) = false.
Proof.
  intros [c Hc]. apply cart_at_Some in Hc.
  destruct (m c) as [c' [e|x]] eqn:Hm.
  - erewrite call_cart_raises; eauto.
  - erewrite call_cart_returns; eauto.
Qed.

(** On a well-formed state [_ensure_cart] returns the address of a cart,
    and [_cart] refers to it. *)
Lemma _ensure_cart_returns (w : User.World) :
  wf w ->
  exists l w', User._ensure_cart w = (w', Return l)
    /\ User._cart (User.self w') = Some l /\ is_Some (cart_at l w').
Proof.
  intros Hw. pose proof (keeps_wf_new_cart w Hw) as Hnew.
  rewrite new_cart_unfold in Hnew. simpl in Hnew.
  assert (exists l w', User.new_cart w = (w', Return l)
            /\ User._cart (User.self w') = Some l /\ is_Some (cart_at l w')) as Hmake.
  { eexists _, _. rewrite new_cart_unfold. split; [reflexivity|].
    split; [reflexivity|]. apply Hnew. reflexivity. }
  unfold User._ensure_cart, bind, User.get_self.
  destruct (User._cart (User.self w)) as [l|] eqn:Hl; [|exact Hmake].
  destruct Hw as [_ Hcart]. destruct (Hcart l Hl) as [c Hc].
  unfold User.load_cart. rewrite (proj1 (cart_at_Some l w c) Hc).
  destruct (ShoppingCart_bool c); [|exact Hmake].
  exists l, w. rewrite Hc. eauto.
Qed.

Lemma add_to_cart_no_dangling (candy : loc) (quantity : Z) (w : User.World) :
  wf w -> is_dangling (snd (User.add_to_cart candy quantity w)) = false.
Proof.
  intros Hw. destruct (_ensure_cart_returns w Hw) as (l & w' & He & _ & Hc).
  unfold User.add_to_cart, bind. rewrite He.
  apply call_cart_no_dangling. assumption.
Qed.

Lemma checkout_no_dangling (pm : PaymentMethod) (w : User.World) :
  wf w -> is_dangling (snd (User.checkout pm w)) = false.
Proof.
  intros Hw. unfold User.checkout, bind at 1, User.get_self.
  destruct (User._cart (User.self w)) as [l|] eqn:Hl; [|reflexivity].
  destruct (proj2 Hw l Hl) as [c Hc].
  unfold bind at 1, User.load_cart. rewrite (proj1 (cart_at_Some l w c) Hc).
  destruct (ShoppingCart_bool c); [|reflexivity].
  unfold User.checkout_cart, bind at 1.
  pose proof (call_cart_no_dangling l (create_order pm) w (ex_intro _ c Hc)) as Hd1.
  pose proof (keeps_wf_call_cart l (create_order pm) w Hw) as Hw1.
  pose proof (call_cart_self l (create_order pm) w) as Hs1.
  destruct (User.call_cart l (create_order pm) w) as [w1 [o|e|]];
    simpl in *; try done.
  destruct (proj1 Hw1) as [xs Hxs]. rewrite Hs1 in Hxs.
  pose proof (keeps_wf_list_append (User._orders (User.self w)) o w1 Hw1) as Hw2.
  unfold bind at 1.
  rewrite (list_append_returns _ o w1 xs (proj1 (elements_at_Some _ _ _) Hxs)) in Hw2 |- *.
  simpl in Hw2. cbv beta iota. unfold bind.
  match goal with |- context [User.call_cart l clear ?w2] =>
    pose proof (call_cart_no_dangling l clear w2) as Hd2;
    destruct (User.call_cart l clear w2) as [w3 [[]|e|]] end; simpl in *; try done.
  apply Hd2, (proj2 Hw2). simpl. congruence.
Qed.

(** No call on a well-formed state meets a dangling reference; with
    [exec_wf], none does in the life of an account. *)
Lemma wf_never_dangles (c : call) (w : User.World) : wf w -> dangles c w = false.
Proof.
  intros Hw. destruct c; cbn [dangles].
  - rewrite login_unfold. simpl. unfold compare_digest.
    repeat case_match; reflexivity.
  - rewrite change_password_unfold. unfold compare_digest.
    repeat case_match; simplify_eq; reflexivity.
  - reflexivity.
  - apply add_to_cart_no_dangling, Hw.
  - apply checkout_no_dangling, Hw.
  - destruct (proj1 Hw) as [xs Hxs]. rewrite (get_orders_returns w xs Hxs). reflexivity.
  - reflexivity.
  - destruct (proj1 Hw) as [xs Hxs]. rewrite (order_count_returns w xs Hxs). reflexivity.
  - reflexivity.
  - reflexivity.
  - reflexivity.
  - unfold on_cart, User.get_cart, bind, User.get_self, ret.
    destruct (User._cart (User.self w)) as [l|] eqn:Hl; [|reflexivity].
    apply call_cart_no_dangling, (proj2 Hw), Hl.
Qed.

End NoDangling.

(** ** The cart of the specification, and concrete runs *)

Section Concrete.
Local Abbreviation C := SpecCart.collaborators.

Lemma SpecCart_truthy (c : SpecCart.cart) : @ShoppingCart_bool C c = true.
Proof. reflexivity. Qed.

Lemma SpecCart_clear_empties (c : SpecCart.cart) :
  exists c', @clear C c = (c', inr tt) /\ @cart_items C c' = [].
Proof. exists []. split; reflexivity. Qed.

Lemma SpecCart_create_order_payment (pm : string) (c c' : SpecCart.cart)
    (o : SpecCart.order) :
  @create_order C pm c = (c', inr o) -> @order_payment_method C o = pm.
Proof. destruct c; simpl; intros [= <- <-]; reflexivity. Qed.

(** The cart of the specification makes no order from an empty cart. *)
Lemma SpecCart_create_order_empty (pm : string) :
  @create_order C pm [] = ([], inl SpecCart.EmptyCartOrder).
Proof. reflexivity. Qed.

(** The scenario of the specification: login, deactivation, login. *)
Example login_scenario :
  let w := @alice C "secret123" in
  snd (User.login "a@x.com" "secret123" w) = Return true
  /\ snd (User.login "a@x.com" "secret123" (fst (User.deactivate (Some "fraud") w)))
     = Return false.
Proof. split; reflexivity. Qed.

Lemma checkout_empty_cart_iff_never_added_witness :
  (forall c : SpecCart.cart, @ShoppingCart_bool C c = true)
  /\ (snd (@User.checkout C "card"
             (run [@AddToCart C 7 1; CartMethod (@clear C); Deactivate None] (@alice C "secret123")))
        = Raise (ValueError "Cart is empty")
      <-> existsb is_add_to_cart [@AddToCart C 7 1; CartMethod (@clear C); Deactivate None] = false).
Proof.
  split; [intros c; reflexivity|].
  apply (@checkout_empty_cart_iff_never_added C SpecCart_truthy).
Defined.

Lemma add_to_cart_reuses_cart_witness :
  (forall c : SpecCart.cart, @ShoppingCart_bool C c = true)
  /\ let w1 := fst (@User.add_to_cart C 7 1 (@alice C "secret123")) in
     let w2 := run [@Checkout C "card"; CartMethod (@clear C)] w1 in
     let w3 := fst (@User.add_to_cart C 8 2 w2) in
     exists l : loc,
       User._cart (User.self w1) = Some l
       /\ User._cart (User.self w2) = Some l
       /\ User._cart (User.self w3) = Some l
       /\ fst (User._ensure_cart w2) = w2
       /\ dom (User.heap w3) = dom (User.heap w2).
Proof.
  split; [intros c; reflexivity|].
  apply (@add_to_cart_reuses_cart C SpecCart_truthy
           (@alice C "secret123") 7 1 [@Checkout C "card"; CartMethod (@clear C)] 8 2).
Defined.

(** C2: an account on which [add_to_cart] was called, and [checkout]
    fails: after a successful checkout the cart is empty, and the cart of
    the specification makes no order from an empty cart. *)
Lemma checkout_after_add_to_cart_fails :
  existsb is_add_to_cart [@AddToCart C 7 2; @Checkout C "card"] = true
  /\ alice_served = run [@AddToCart C 7 2; @Checkout C "card"] (@alice C "secret123")
  /\ snd (@User.checkout C "card" alice_shopping)
     = Return (SpecCart.mkOrder [(7%positive, 2)] "card")
  /\ snd (@User.checkout C "card" alice_served)
     = Raise (@Propagated C SpecCart.EmptyCartOrder)
  /\ snd (@User.order_count C alice_served) = Return 1
  /\ snd (@User.order_count C (fst (@User.checkout C "card" alice_served))) = Return 1.
Proof. vm_compute. repeat split. Qed.

Lemma checkout_appends_order_and_clears_witness :
  let o := SpecCart.mkOrder [(7%positive, 2)] "card" in
  (User._cart (User.self alice_shopping) = Some 2%positive
   /\ cart_at 2%positive alice_shopping = Some [(7%positive, 2)]
   /\ @ShoppingCart_bool C [(7%positive, 2)] = true
   /\ elements_at (User._orders (User.self alice_shopping)) alice_shopping = Some []
   /\ @create_order C "card" [(7%positive, 2)] = ([(7%positive, 2)], inr o))
  /\ exists w' : @User.World C,
    @User.checkout C "card" alice_shopping = (w', Return o)
    /\ User.self w' = User.self alice_shopping
    /\ elements_at (User._orders (User.self w')) w' = Some ([] ++ [o])
    /\ snd (User.order_count alice_shopping)
       = Return (Z.of_nat (length (@nil SpecCart.order)))
    /\ snd (User.order_count w')
       = Return (Z.of_nat (length (@nil SpecCart.order)) + 1)
    /\ (exists c2, cart_at 2%positive w' = Some c2 /\ @cart_items C c2 = [])
    /\ @order_payment_method C o = "card".
Proof.
  intros o.
  split; [repeat split; vm_compute; reflexivity|].
  apply (@checkout_appends_order_and_clears C
           SpecCart_clear_empties SpecCart_create_order_payment
           "card" alice_shopping 2%positive [(7%positive, 2)] [(7%positive, 2)] o []);
    vm_compute; reflexivity.
Defined.

Lemma get_orders_is_independent_copy_witness :
  let xs := [SpecCart.mkOrder [(7%positive, 2)] "card"] in
  elements_at (User._orders (User.self alice_served)) alice_served = Some xs
  /\ exists (l : loc) (w' : @User.World C),
    @User.get_orders C alice_served = (w', Return l)
    /\ l <> User._orders (User.self alice_served)
    /\ User.heap alice_served !! l = None
    /\ User.self w' = User.self alice_served
    /\ elements_at l w' = Some xs
    /\ elements_at (User._orders (User.self w')) w' = Some xs
    /\ forall fs : list (list SpecCart.order -> list SpecCart.order),
         let w'' := @mutate C l fs w' in
         elements_at l w'' = Some (fold_left (fun ys f => f ys) fs xs)
         /\ elements_at (User._orders (User.self w'')) w'' = Some xs
         /\ exists l2 w3,
              User.get_orders w'' = (w3, Return l2)
              /\ elements_at l2 w3 = Some xs.
Proof.
  intros xs.
  split; [vm_compute; reflexivity|].
  apply (@get_orders_is_independent_copy C alice_served xs).
  vm_compute. reflexivity.
Defined.

Lemma update_inventory_checks_quantity_witness :
  let attrs : gmap string pyval := {[ "name" := PyStr "fudge"; "quantity" := PyInt 3 ]} in
  candy_store !! 5%positive = Some (@OObject C attrs)
  /\ ((exists e, snd (@Staff.update_inventory C bob 5%positive (-1) candy_store) = Raise e)
        <-> -1 < 0)
  /\ (-1 < 0 ->
      @Staff.update_inventory C bob 5%positive (-1) candy_store =
      (candy_store, Raise (ValueError "Quantity cannot be negative")))
  /\ (0 <= -1 ->
      @Staff.update_inventory C bob 5%positive (-1) candy_store =
      (<[5%positive := OObject (<["quantity" := PyInt (-1)]> attrs)]> candy_store,
       Return tt))
  /\ snd (@Staff.update_inventory C bob 5%positive (-1) candy_store)
       = Raise (ValueError "Quantity cannot be negative")
  /\ (let h' := fst (@Staff.update_inventory C bob 5%positive 0 candy_store) in
      snd (@Staff.update_inventory C bob 5%positive 0 candy_store) = Return tt
      /\ Staff.getattr 5%positive "quantity" h' = Some (PyInt 0)).
Proof.
  intros attrs.
  split; [vm_compute; reflexivity|].
  apply (@update_inventory_checks_quantity C bob 5%positive (-1) candy_store attrs).
  vm_compute. reflexivity.
Defined.

End Concrete.

(** * Further properties *)

(** ** Sequences of operations on a person *)

(** X1: after any sequence of [verify_email] and [update_email] the
    identifier and the name are those the person was made with, the email
    is the one of the last [update_email] (the first one if there was
    none), and the email is verified exactly when a [verify_email] came
    after the last [update_email] (or there was neither and it was
    verified before). *)
Theorem person_run_fields (os : list person_op) (p : Person.t) :
  Person.person_id (person_run os p) = Person.person_id p
  /\ Person.name (person_run os p) = Person.name p
  /\ Person.email (person_run os p) = last_email os (Person.email p)
  /\ Person.email_verified (person_run os p)
     = last_verified os (Person.email_verified p).
Proof.
  revert p. induction os as [|o os IH]; intros p; [repeat split|].
  destruct (IH (person_exec o p)) as (Hid & Hname & Hemail & Hver).
  unfold person_run in *. simpl. rewrite Hid, Hname, Hemail, Hver.
  destruct o; repeat split.
Qed.

(** Closes the cases left by a case analysis of a method. *)
Ltac cases :=
  repeat split; intros;
  repeat match goal with
         | H : _ /\ _ |- _ => destruct H
         | H : exists _, _ |- _ => destruct H
         end;
  simplify_eq; eauto; try congruence; try discriminate.

Section Authentication.
Context `{Collaborators}.

(** X2: [login] returns true exactly when the account is active, the
    email is the stored one, both passwords are ASCII and they are
    equal; it never changes the account or the store. *)
Theorem login_true_iff (email password : string) (w : User.World) :
  (snd (User.login email password w) = Return true
   <-> User.is_active (User.self w) = true
       /\ Person.email (User.person (User.self w)) = email
       /\ isascii (User._password (User.self w)) = true
       /\ isascii password = true
       /\ User._password (User.self w) = password)
  /\ fst (User.login email password w) = w.
Proof.
  rewrite login_unfold. simpl. split; [|reflexivity]. unfold compare_digest.
  destruct (User.is_active (User.self w)); [|cases].
  destruct (String.eqb_spec (Person.email (User.person (User.self w))) email);
    [|cases].
  destruct (isascii (User._password (User.self w))); simpl; [|cases].
  destruct (isascii password); simpl; [|cases].
  destruct (String.eqb_spec (User._password (User.self w)) password); cases.
Qed.

(** X3: [login] raises exactly when the account is active, the email is
    the stored one and one of the two passwords has a character outside
    ASCII, and then it raises [TypeError]; an inactive account and a
    wrong email get false before the passwords are looked at. *)
Theorem login_raises_iff (email password : string) (w : User.World) :
  ((exists e, snd (User.login email password w) = Raise e)
   <-> User.is_active (User.self w) = true
       /\ Person.email (User.person (User.self w)) = email
       /\ isascii (User._password (User.self w)) && isascii password = false)
  /\ (forall e, snd (User.login email password w) = Raise e ->
      exists msg, e = TypeError msg)
  /\ snd (User.login email password w) <> Dangling.
Proof.
  rewrite login_unfold. simpl. unfold compare_digest.
  destruct (User.is_active (User.self w)); [|cases].
  destruct (String.eqb_spec (Person.email (User.person (User.self w))) email);
    [|cases].
  destruct (isascii (User._password (User.self w)) && isascii password);
    cases.
Qed.

(** X4: [change_password] returns true exactly when the stored and the
    old password are ASCII and equal, and false exactly when they are
    ASCII and differ; the new password is not looked at.  Only when it
    returns true is anything changed, and then the stored password
    alone. *)
Theorem change_password_outcomes (old_password new_password : string) (w : User.World) :
  let stored := User._password (User.self w) in
  let r := User.change_password old_password new_password w in
  (snd r = Return true
   <-> isascii stored = true /\ isascii old_password = true /\ stored = old_password)
  /\ (snd r = Return false
   <-> isascii stored = true /\ isascii old_password = true /\ stored <> old_password)
  /\ (snd r = Return true ->
      fst r = User.mkWorld (User.heap w) (User.set_password new_password (User.self w)))
  /\ (snd r <> Return true -> fst r = w).
Proof.
  intros stored r. subst r. rewrite change_password_unfold. fold stored.
  unfold compare_digest.
  destruct (isascii stored); simpl; [|cases].
  destruct (isascii old_password); simpl; [|cases].
  destruct (String.eqb_spec stored old_password); cases.
Qed.

End Authentication.

(** ** What a call changes of the account *)

Section SelfEffects.
Context `{Collaborators}.

Lemma keeps_self_pure {A} (m : M User.World A) :
  (forall w, fst (m w) = w) -> keeps_self m.
Proof. intros Hm w. rewrite Hm. reflexivity. Qed.

Lemma keeps_self_bind {A B} (m : M User.World A) (k : A -> M User.World B) :
  keeps_self m -> (forall a, keeps_self (k a)) -> keeps_self (bind m k).
Proof.
  intros Hm Hk w. unfold bind. specialize (Hm w).
  destruct (m w) as [w' [a|e|]]; simpl in *; [|assumption..].
  rewrite Hk. assumption.
Qed.

Lemma keeps_self_load_list (l : loc) : keeps_self (User.load_list l).
Proof.
  intros w. unfold User.load_list.
  destruct (User.heap w !! l) as [[?|?|?]|]; reflexivity.
Qed.

Lemma keeps_self_list_append (l : loc) (x : Order) : keeps_self (User.list_append l x).
Proof.
  unfold User.list_append. apply keeps_self_bind; [apply keeps_self_load_list|].
  intros xs w. reflexivity.
Qed.

Lemma keeps_self_call_cart {R} (l : loc)
    (m : ShoppingCart -> ShoppingCart * (CartError + R)) :
  keeps_self (User.call_cart l m).
Proof. intros w. apply call_cart_self. Qed.

Lemma keeps_self_checkout (pm : PaymentMethod) : keeps_self (User.checkout pm).
Proof.
  intros w. unfold User.checkout, bind at 1, User.get_self.
  destruct (User._cart (User.self w)) as [l|]; [|reflexivity].
  unfold bind at 1, User.load_cart.
  destruct (User.heap w !! l) as [[c|?|?]|]; try reflexivity.
  destruct (ShoppingCart_bool c); [|reflexivity].
  generalize (User._orders (User.self w)). intros orders.
  revert w. change (keeps_self (User.checkout_cart pm l orders)).
  unfold User.checkout_cart.
  apply keeps_self_bind; [apply keeps_self_call_cart|]. intros o.
  apply keeps_self_bind; [apply keeps_self_list_append|]. intros _.
  apply keeps_self_bind; [apply keeps_self_call_cart|]. intros _.
  apply keeps_self_pure. reflexivity.
Qed.

Lemma keeps_self_get_orders : keeps_self User.get_orders.
Proof.
  intros w. unfold User.get_orders, bind, User.get_self, User.load_list.
  destruct (User.heap w !! _) as [[?|?|?]|]; reflexivity.
Qed.

Lemma keeps_self_order_count : keeps_self User.order_count.
Proof.
  intros w. unfold User.order_count, bind, User.get_self, User.load_list.
  destruct (User.heap w !! _) as [[?|?|?]|]; reflexivity.
Qed.

Lemma keeps_self_on_cart (m : ShoppingCart -> ShoppingCart * (CartError + unit)) :
  keeps_self (on_cart m).
Proof.
  intros w. unfold on_cart, User.get_cart, bind, User.get_self, ret.
  destruct (User._cart (User.self w)) as [l|]; [|reflexivity].
  apply call_cart_self.
Qed.

(** [add_to_cart] changes at most the cart reference. *)
Lemma add_to_cart_self (candy : loc) (quantity : Z) (w : User.World) :
  let u' := User.self (fst (User.add_to_cart candy quantity w)) in
  u' = User.self w \/ exists l, u' = User.set_cart (Some l) (User.self w).
Proof.
  simpl. unfold User.add_to_cart, bind.
  assert (let (w1, r) := User._ensure_cart w in
          User.self w1 = User.self w
          \/ exists l, User.self w1 = User.set_cart (Some l) (User.self w)) as He.
  { unfold User._ensure_cart, bind, User.get_self.
    destruct (User._cart (User.self w)) as [l|].
    - unfold User.load_cart.
      destruct (User.heap w !! l) as [[c|?|?]|]; simpl; auto.
      destruct (ShoppingCart_bool c); simpl; [auto|].
      right. eexists. reflexivity.
    - simpl. right. eexists. reflexivity. }
  destruct (User._ensure_cart w) as [w1 [l| |]]; simpl; try assumption.
  rewrite call_cart_self. assumption.
Qed.

(** The fields of the account after a call: as before, or changed by the
    one assignment the method called makes. *)
Lemma exec_self_cases (c : call) (w : User.World) :
  let u := User.self w in
  let u' := User.self (exec c w) in
  u' = u
  \/ (exists o n, c = ChangePassword o n /\ u' = User.set_password n u)
  \/ (exists r, c = Deactivate r /\ u' = User.set_active false r u)
  \/ (c = VerifyEmail /\ u' = User.set_person Person.verify_email u)
  \/ (exists e, c = UpdateEmail e /\ u' = User.set_person (Person.update_email e) u)
  \/ (exists candy q l, c = AddToCart candy q /\ u' = User.set_cart (Some l) u).
Proof.
  simpl. destruct c; cbn [exec].
  - rewrite login_pure. auto.
  - destruct (change_password_frame old_password new_password w) as [-> | ->];
      [auto|]. right; left. eexists _, _. split; reflexivity.
  - right; right; left. eexists. split; reflexivity.
  - destruct (add_to_cart_self candy quantity w) as [Hu | [l Hu]]; [auto|].
    do 5 right. eexists _, _, _. split; [reflexivity|eassumption].
  - left. apply keeps_self_checkout.
  - left. apply keeps_self_get_orders.
  - auto.
  - left. apply keeps_self_order_count.
  - auto.
  - right; right; right; left. split; reflexivity.
  - right; right; right; right; left. eexists. split; reflexivity.
  - left. apply keeps_self_on_cart.
Qed.

(** X6: the identifier, the name and the order list of an account are
    those it was made with, whatever is done with the account: no method
    assigns [person_id], [name] or [_orders]. *)
Theorem run_keeps_identity (cs : list call) (w : User.World) :
  Person.person_id (User.person (User.self (run cs w)))
    = Person.person_id (User.person (User.self w))
  /\ Person.name (User.person (User.self (run cs w)))
     = Person.name (User.person (User.self w))
  /\ User._orders (User.self (run cs w)) = User._orders (User.self w).
Proof.
  revert w. induction cs as [|c cs IH]; intros w; [repeat split|].
  destruct (IH (exec c w)) as (Hid & Hname & Horders).
  unfold run in *. simpl. rewrite Hid, Hname, Horders.
  destruct (exec_self_cases c w)
    as [Hu | [(o & n & _ & Hu) | [(r & _ & Hu) | [(_ & Hu) | [(e & _ & Hu) | (candy & q & l & _ & Hu)]]]]];
    rewrite Hu; repeat split.
Qed.

(** X7: deactivation is final.  Once an account is inactive it stays
    inactive whatever is called on it, and every [login] returns false,
    without raising and whatever the passwords. *)
Theorem deactivated_forever (cs : list call) (w : User.World) :
  User.is_active (User.self w) = false ->
  User.is_active (User.self (run cs w)) = false
  /\ forall email password,
       User.login email password (run cs w) = (run cs w, Return false).
Proof.
  intros Hw.
  assert (User.is_active (User.self (run cs w)) = false) as Hrun.
  { revert w Hw. induction cs as [|c cs IH]; intros w Hw; [assumption|].
    apply IH.
    destruct (exec_self_cases c w)
      as [Hu | [(o & n & _ & Hu) | [(r & _ & Hu) | [(_ & Hu) | [(e & _ & Hu) | (candy & q & l & _ & Hu)]]]]];
      rewrite Hu; simpl; auto. }
  split; [assumption|]. intros email password. apply login_inactive. assumption.
Qed.

(** A login that returns true has compared two ASCII passwords. *)
Lemma login_true_ascii (email password : string) (w : User.World) :
  snd (User.login email password w) = Return true ->
  isascii (User._password (User.self w)) = true.
Proof.
  rewrite login_unfold. simpl. unfold compare_digest.
  destruct (User.is_active (User.self w)); [|discriminate].
  destruct (String.eqb _ email); [|discriminate].
  destruct (isascii (User._password (User.self w))); [reflexivity|discriminate].
Qed.

(** X8: a stored password with a character outside ASCII locks the
    account for good: whatever is called on it, the stored password stays
    the same, every [change_password] raises [TypeError], and no [login]
    returns true. *)
Theorem non_ascii_password_locks (cs : list call) (w : User.World) :
  isascii (User._password (User.self w)) = false ->
  User._password (User.self (run cs w)) = User._password (User.self w)
  /\ (forall old_password new_password,
        exists msg,
          User.change_password old_password new_password (run cs w)
          = (run cs w, Raise (TypeError msg)))
  /\ (forall email password,
        snd (User.login email password (run cs w)) <> Return true).
Proof.
  intros Hw.
  assert (forall w', isascii (User._password (User.self w')) = false ->
            forall o n, exists msg,
              User.change_password o n w' = (w', Raise (TypeError msg))) as Hch.
  { intros w' Hw' o n. rewrite change_password_unfold. unfold compare_digest.
    rewrite Hw'. simpl. eauto. }
  assert (User._password (User.self (run cs w)) = User._password (User.self w)) as Hrun.
  { revert w Hw. induction cs as [|c cs IH]; intros w Hw; [reflexivity|].
    assert (User._password (User.self (exec c w)) = User._password (User.self w)) as Hc.
    { destruct (exec_self_cases c w)
        as [Hu | [(o & n & -> & Hu) | [(r & _ & Hu) | [(_ & Hu) | [(e & _ & Hu) | (candy & q & l & _ & Hu)]]]]];
        try (rewrite Hu; reflexivity).
      cbn [exec]. destruct (Hch w Hw o n) as [msg ->]. reflexivity. }
    unfold run in *. simpl. rewrite IH; [assumption|]. rewrite Hc. assumption. }
  split; [assumption|]. split.
  - apply Hch. rewrite Hrun. assumption.
  - intros email password Htrue.
    apply login_true_ascii in Htrue. congruence.
Qed.

(** X9: the address that [login] accepts is the current one.  After
    [update_email] a login with any other address, the old one included,
    returns false, and a login with the new address and ASCII passwords
    returns whether the account is active and the password is right. *)
Theorem login_after_update_email (new_email email password : string) (w : User.World) :
  let w' := fst (User.update_email new_email w) in
  (email <> new_email -> User.login email password w' = (w', Return false))
  /\ (isascii (User._password (User.self w)) = true -> isascii password = true ->
      User.login new_email password w'
      = (w', Return (User.is_active (User.self w)
                     && String.eqb (User._password (User.self w)) password))).
Proof.
  intros w'. split.
  - intros Hne. rewrite login_unfold. subst w'. simpl.
    destruct (String.eqb_spec new_email email); [congruence|].
    destruct (User.is_active (User.self w)); reflexivity.
  - intros Hs Hp. rewrite login_ascii by assumption. subst w'. simpl.
    rewrite String.eqb_refl, andb_true_r. reflexivity.
Qed.

End SelfEffects.

(** ** What a call changes of the store *)

Section StoreEffects.
Context `{Collaborators}.

(** A call of a cart method on a cart: the cart is what the method left,
    whether it returned or raised. *)
Lemma call_cart_cases {R} (l : loc)
    (m : ShoppingCart -> ShoppingCart * (CartError + R))
    (w : User.World) (c : ShoppingCart) :
  User.heap w !! l = Some (OCart c) ->
  User.call_cart l m w =
  (User.mkWorld (<[l := OCart (fst (m c))]> (User.heap w)) (User.self w),
   raised (snd (m c))).
Proof.
  intros Hl. destruct (m c) as [c' [e|x]] eqn:Hm; simpl.
  - apply (call_cart_raises l m w c c' e Hl Hm).
  - apply (call_cart_returns l m w c c' x Hl Hm).
Qed.

(** A call of a cart method changes no object but its cart. *)
Lemma call_cart_lookup_ne {R} (l l' : loc)
    (m : ShoppingCart -> ShoppingCart * (CartError + R)) (w : User.World) :
  l' <> l -> User.heap (fst (User.call_cart l m w)) !! l' = User.heap w !! l'.
Proof.
  intros Hne. unfold User.call_cart, bind, User.load_cart.
  destruct (User.heap w !! l) as [[c|?|?]|]; try reflexivity.
  destruct (m c) as [c' [e|x]]; simpl; apply lookup_insert_ne; congruence.
Qed.

(** It changes the elements of no list. *)
Lemma call_cart_elements {R} (l l' : loc)
    (m : ShoppingCart -> ShoppingCart * (CartError + R)) (w : User.World) :
  elements_at l' (fst (User.call_cart l m w)) = elements_at l' w.
Proof.
  destruct (decide (l' = l)) as [->|Hne].
  - unfold elements_at, User.call_cart, bind, User.load_cart.
    destruct (User.heap w !! l) as [[c|?|?]|] eqn:Hl; simpl; rewrite ?Hl; try reflexivity.
    destruct (m c) as [c' [e|x]]; simpl; rewrite lookup_insert_eq; reflexivity.
  - unfold elements_at. rewrite call_cart_lookup_ne by assumption. reflexivity.
Qed.

(** How [_ensure_cart] ends: with the cart in place, or as [new_cart]. *)
Lemma _ensure_cart_cases (w : User.World) :
  (exists l, User._cart (User.self w) = Some l
             /\ (User._ensure_cart w = (w, Return l)
                 \/ User._ensure_cart w = (w, Dangling)))
  \/ User._ensure_cart w = User.new_cart w.
Proof.
  unfold User._ensure_cart, bind, User.get_self.
  destruct (User._cart (User.self w)) as [l|] eqn:Hl; [|right; reflexivity].
  unfold User.load_cart.
  destruct (User.heap w !! l) as [[c|?|?]|]; simpl; eauto.
  destruct (ShoppingCart_bool c); eauto.
Qed.

(** [add_to_cart] changes no object that is not the account's, and the
    object stays not the account's. *)
Lemma add_to_cart_foreign (candy : loc) (quantity : Z) (l : loc) (w : User.World) :
  foreign l w ->
  User.heap (fst (User.add_to_cart candy quantity w)) !! l = User.heap w !! l
  /\ foreign l (fst (User.add_to_cart candy quantity w)).
Proof.
  intros (Hsome & Horders & Hcart). unfold User.add_to_cart, bind.
  destruct (_ensure_cart_cases w) as [(l0 & Hl0 & [-> | ->]) | ->].
  - assert (l <> l0) as Hne by congruence.
    split; [apply call_cart_lookup_ne; assumption|].
    unfold foreign. rewrite call_cart_self, call_cart_lookup_ne by assumption. auto.
  - simpl. unfold foreign. auto.
  - rewrite new_cart_unfold. cbv zeta.
    set (l0 := fresh (dom (User.heap w))).
    assert (l <> l0) as Hne.
    { intros ->. destruct Hsome as [o Ho].
      pose proof (fresh_not_allocated (User.heap w)). unfold l0 in Ho. congruence. }
    split.
    + rewrite call_cart_lookup_ne by assumption. simpl. apply lookup_insert_ne. congruence.
    + unfold foreign. rewrite call_cart_self, call_cart_lookup_ne by assumption. simpl.
      rewrite lookup_insert_ne by congruence. split; [assumption|]. split; [assumption|].
      congruence.
Qed.

(** [add_to_cart] changes the elements of no list. *)
Lemma add_to_cart_elements (candy : loc) (quantity : Z) (l : loc) (w : User.World) :
  elements_at l (fst (User.add_to_cart candy quantity w)) = elements_at l w.
Proof.
  unfold User.add_to_cart, bind.
  destruct (_ensure_cart_cases w) as [(l0 & Hl0 & [-> | ->]) | ->].
  - apply call_cart_elements.
  - reflexivity.
  - rewrite new_cart_unfold. cbv zeta. rewrite call_cart_elements.
    unfold elements_at. simpl.
    destruct (decide (fresh (dom (User.heap w)) = l)) as [<-|Hne].
    + rewrite lookup_insert_eq, fresh_not_allocated. reflexivity.
    + rewrite lookup_insert_ne by assumption. reflexivity.
Qed.

(** The history after [checkout]: as before, or with one order more at
    its end. *)
Lemma checkout_history (pm : PaymentMethod) (w : User.World) (xs : list Order) :
  elements_at (User._orders (User.self w)) w = Some xs ->
  let w' := fst (User.checkout pm w) in
  elements_at (User._orders (User.self w)) w' = Some xs
  \/ exists o, elements_at (User._orders (User.self w)) w' = Some (xs ++ [o]).
Proof.
  intros Hxs. simpl. set (orders := User._orders (User.self w)) in *.
  destruct (User.checkout pm w) as [w' r] eqn:Hco. simpl. revert Hco.
  unfold User.checkout, bind at 1, User.get_self.
  destruct (User._cart (User.self w)) as [l|]; [|intros [= <- <-]; auto].
  unfold bind at 1, User.load_cart.
  destruct (User.heap w !! l) as [[c|?|?]|]; simpl; try (intros [= <- <-]; auto).
  destruct (ShoppingCart_bool c); simpl; [|intros [= <- <-]; auto].
  fold orders. unfold User.checkout_cart, bind at 1.
  pose proof (call_cart_elements l orders (create_order pm) w) as H1.
  rewrite Hxs in H1.
  destruct (User.call_cart l (create_order pm) w) as [w1 [o|e|]];
    try (intros [= <- <-]; auto).
  simpl in H1. unfold bind at 1.
  rewrite (list_append_returns orders o w1 xs (proj1 (elements_at_Some _ _ _) H1)).
  cbv beta iota. unfold bind.
  match goal with |- context [User.call_cart l clear ?w2] =>
    assert (elements_at orders w2 = Some (xs ++ [o])) as H3
      by (apply elements_at_Some; simpl; apply lookup_insert_eq);
    rewrite <- (call_cart_elements l orders clear w2) in H3;
    destruct (User.call_cart l clear w2) as [w3 [[]|e|]] end;
    intros [= <- <-]; right; exists o; exact H3.
Qed.

(** [checkout] changes no object that is not the account's. *)
Lemma checkout_lookup_foreign (pm : PaymentMethod) (l : loc) (w : User.World) :
  foreign l w ->
  User.heap (fst (User.checkout pm w)) !! l = User.heap w !! l.
Proof.
  intros (Hsome & Horders & Hcart). unfold User.checkout, bind at 1, User.get_self.
  destruct (User._cart (User.self w)) as [l0|]; [|reflexivity].
  assert (l <> l0) as Hne by congruence.
  unfold bind at 1, User.load_cart.
  destruct (User.heap w !! l0) as [[c|?|?]|]; simpl; try reflexivity.
  destruct (ShoppingCart_bool c); simpl; [|reflexivity].
  set (orders := User._orders (User.self w)) in *.
  unfold User.checkout_cart, bind at 1.
  pose proof (call_cart_lookup_ne l0 l (create_order pm) w Hne) as H1.
  destruct (User.call_cart l0 (create_order pm) w) as [w1 [o|e|]]; simpl in *;
    try assumption.
  unfold bind at 1, User.list_append, bind at 1, User.load_list.
  destruct (User.heap w1 !! orders) as [[?|xs|?]|]; simpl; try assumption.
  unfold bind.
  match goal with |- context [User.call_cart l0 clear ?w2] =>
    pose proof (call_cart_lookup_ne l0 l clear w2 Hne) as H2;
    destruct (User.call_cart l0 clear w2) as [w3 [[]|e|]] end;
    simpl in *; rewrite H2, lookup_insert_ne by congruence; assumption.
Qed.

(** A call leaves the address of the order list as it is. *)
Lemma exec_keeps_orders (c : call) (w : User.World) :
  User._orders (User.self (exec c w)) = User._orders (User.self w).
Proof.
  destruct (exec_self_cases c w)
    as [Hu | [(o & n & _ & Hu) | [(r & _ & Hu) | [(_ & Hu) | [(e & _ & Hu) | (candy & q & l & _ & Hu)]]]]];
    rewrite Hu; reflexivity.
Qed.

(** The history after a call: as before, or, after a [checkout], with
    one order more at its end. *)
Lemma exec_history (c : call) (w : User.World) (xs : list Order) :
  elements_at (User._orders (User.self w)) w = Some xs ->
  elements_at (User._orders (User.self w)) (exec c w) = Some xs
  \/ (is_checkout c = true
      /\ exists o, elements_at (User._orders (User.self w)) (exec c w) = Some (xs ++ [o])).
Proof.
  intros Hxs. destruct c; cbn [exec is_checkout].
  - rewrite login_pure. auto.
  - destruct (change_password_frame old_password new_password w) as [-> | ->]; auto.
  - auto.
  - rewrite add_to_cart_elements. auto.
  - destruct (checkout_history payment_method w xs Hxs) as [Hh | Hh]; auto.
  - rewrite (get_orders_returns w xs Hxs). simpl. left.
    rewrite elements_at_insert_ne; [destruct w; exact Hxs|].
    intros Heq. apply elements_at_Some in Hxs.
    pose proof (fresh_not_allocated (User.heap w)). congruence.
  - auto.
  - rewrite (order_count_returns w xs Hxs). auto.
  - auto.
  - auto.
  - auto.
  - left. unfold on_cart, User.get_cart, bind, User.get_self, ret.
    destruct (User._cart (User.self w)) as [l|]; [|assumption].
    rewrite call_cart_elements. assumption.
Qed.

(** A call changes no object that is not the account's, and the object
    stays not the account's. *)
Lemma exec_foreign (c : call) (l : loc) (w : User.World) :
  foreign l w ->
  User.heap (exec c w) !! l = User.heap w !! l /\ foreign l (exec c w).
Proof.
  intros Hf.
  assert (User.heap (exec c w) !! l = User.heap w !! l
          -> User._cart (User.self (exec c w)) = User._cart (User.self w)
          -> User.heap (exec c w) !! l = User.heap w !! l /\ foreign l (exec c w)) as Hkeep.
  { intros Hh Hc. split; [assumption|]. destruct Hf as (Hsome & Horders & Hcart).
    unfold foreign. rewrite Hh, Hc, exec_keeps_orders. auto. }
  destruct (is_add_to_cart c) eqn:Hadd.
  { destruct c; try discriminate. cbn [exec]. apply add_to_cart_foreign, Hf. }
  apply Hkeep; [|apply exec_keeps_cart, Hadd]. clear Hkeep.
  destruct c; try discriminate; cbn [exec].
  - rewrite login_pure. reflexivity.
  - destruct (change_password_frame old_password new_password w) as [-> | ->];
      reflexivity.
  - reflexivity.
  - apply checkout_lookup_foreign, Hf.
  - unfold User.get_orders, bind, User.get_self, User.load_list.
    destruct (User.heap w !! User._orders (User.self w)) as [[?|xs|?]|]; try reflexivity.
    simpl. apply lookup_insert_ne. intros Heq.
    destruct Hf as ([o Ho] & _ & _).
    pose proof (fresh_not_allocated (User.heap w)). congruence.
  - reflexivity.
  - unfold User.order_count, bind, User.get_self, User.load_list.
    destruct (User.heap w !! User._orders (User.self w)) as [[?|xs|?]|]; reflexivity.
  - reflexivity.
  - reflexivity.
  - reflexivity.
  - unfold on_cart, User.get_cart, bind, User.get_self, ret.
    destruct (User._cart (User.self w)) as [l0|] eqn:Hl0; [|reflexivity].
    apply call_cart_lookup_ne. destruct Hf as (_ & _ & Hcart). congruence.
Qed.

End StoreEffects.

(** ** The order history and the rest of the store *)

Section History.
Context `{Collaborators}.

(** X10: the order history only grows, and only at its end.  After any
    sequence of calls the history is the history before followed by new
    orders, at most one for each [checkout] called, and [order_count] is
    its length. *)
Theorem history_is_append_only (cs : list call) (w : User.World) (xs : list Order) :
  elements_at (User._orders (User.self w)) w = Some xs ->
  exists ys : list Order,
    elements_at (User._orders (User.self (run cs w))) (run cs w) = Some (xs ++ ys)
    /\ (length ys <= checkouts cs)%nat
    /\ snd (User.order_count (run cs w))
       = Return (Z.of_nat (length xs) + Z.of_nat (length ys)).
Proof.
  revert w xs. induction cs as [|c cs IH]; intros w xs Hxs.
  - exists []. rewrite app_nil_r. split; [assumption|]. split; [simpl; lia|].
    simpl. rewrite (order_count_returns w xs Hxs). simpl. f_equal. lia.
  - assert (run (c :: cs) w = run cs (exec c w)) as -> by reflexivity.
    pose proof (exec_keeps_orders c w) as Ho.
    unfold checkouts. simpl List.filter.
    destruct (exec_history c w xs Hxs) as [Hh | (Hc & o & Hh)]; rewrite <- Ho in Hh.
    + destruct (IH (exec c w) xs Hh) as (ys & Hys & Hlen & Hcount).
      exists ys. split; [assumption|]. split; [|assumption].
      unfold checkouts in Hlen. destruct (is_checkout c); simpl; lia.
    + destruct (IH (exec c w) (xs ++ [o]) Hh) as (ys & Hys & Hlen & Hcount).
      exists (o :: ys). rewrite <- app_assoc in Hys. simpl in Hys.
      split; [assumption|]. rewrite Hc. unfold checkouts in Hlen. simpl.
      split; [lia|]. rewrite Hcount, length_app. simpl. f_equal. lia.
Qed.

(** X11: the calls on an account leave every other object of the store
    as it is: an object that is neither the order list nor the cart of
    the account is the same after any sequence of calls, and never
    becomes the account's. *)
Theorem calls_leave_other_objects (cs : list call) (l : loc) (w : User.World) :
  foreign l w ->
  User.heap (run cs w) !! l = User.heap w !! l /\ foreign l (run cs w).
Proof.
  revert w. induction cs as [|c cs IH]; intros w Hf; [split; [reflexivity|assumption]|].
  assert (run (c :: cs) w = run cs (exec c w)) as -> by reflexivity.
  destruct (exec_foreign c l w Hf) as [Hh Hf'].
  destruct (IH (exec c w) Hf') as [Hh' Hf'']. split; [congruence|assumption].
Qed.

(** X12: when [create_order] raises, [checkout] raises the same
    exception; the cart is what [create_order] left, it is not cleared,
    and the history is as before. *)
Theorem checkout_create_order_raises (pm : PaymentMethod) (w : User.World) (l : loc)
    (c c1 : ShoppingCart) (e : CartError) (xs : list Order) :
  User._cart (User.self w) = Some l ->
  cart_at l w = Some c ->
  ShoppingCart_bool c = true ->
  elements_at (User._orders (User.self w)) w = Some xs ->
  create_order pm c = (c1, inl e) ->
  let w' := User.mkWorld (<[l := OCart c1]> (User.heap w)) (User.self w) in
  User.checkout pm w = (w', Raise (Propagated e))
  /\ cart_at l w' = Some c1
  /\ elements_at (User._orders (User.self w')) w' = Some xs.
Proof.
  intros Hl Hc Hb Hxs Hcreate w'.
  assert (User._orders (User.self w) <> l) as Hne
    by (eapply list_is_no_cart; [rewrite Hxs | rewrite Hc]; eauto).
  apply cart_at_Some in Hc. split; [|split].
  - unfold User.checkout, bind at 1, User.get_self. rewrite Hl.
    unfold bind at 1, User.load_cart. rewrite Hc, Hb.
    unfold User.checkout_cart, bind.
    rewrite (call_cart_raises l _ w c c1 e Hc Hcreate). reflexivity.
  - apply cart_at_Some. simpl. apply lookup_insert_eq.
  - apply elements_at_Some. simpl. rewrite lookup_insert_ne by congruence.
    apply elements_at_Some. assumption.
Qed.

(** X13: [checkout] is not all or nothing.  When [create_order] returns
    an order and [clear] then raises, [checkout] raises that exception
    and returns no order, yet the order is in the history. *)
Theorem checkout_clear_raises (pm : PaymentMethod) (w : User.World) (l : loc)
    (c c1 c2 : ShoppingCart) (o : Order) (e : CartError) (xs : list Order) :
  User._cart (User.self w) = Some l ->
  cart_at l w = Some c ->
  ShoppingCart_bool c = true ->
  elements_at (User._orders (User.self w)) w = Some xs ->
  create_order pm c = (c1, inr o) ->
  clear c1 = (c2, inl e) ->
  exists w' : User.World,
    User.checkout pm w = (w', Raise (Propagated e))
    /\ elements_at (User._orders (User.self w')) w' = Some (xs ++ [o])
    /\ cart_at l w' = Some c2.
Proof.
  intros Hl Hc Hb Hxs Hcreate Hclear.
  assert (User._orders (User.self w) <> l) as Hne
    by (eapply list_is_no_cart; [rewrite Hxs | rewrite Hc]; eauto).
  apply cart_at_Some in Hc. apply elements_at_Some in Hxs.
  exists (User.mkWorld
            (<[l := OCart c2]>
               (<[User._orders (User.self w) := OList (xs ++ [o])]>
                  (<[l := OCart c1]> (User.heap w))))
            (User.self w)).
  split; [|split].
  - unfold User.checkout, bind at 1, User.get_self. rewrite Hl.
    unfold bind at 1, User.load_cart. rewrite Hc, Hb.
    unfold User.checkout_cart, bind.
    rewrite (call_cart_returns l _ w c c1 o Hc Hcreate).
    erewrite list_append_returns; [|simpl; rewrite lookup_insert_ne; [exact Hxs|congruence]].
    erewrite call_cart_raises; [reflexivity| |exact Hclear].
    simpl. rewrite lookup_insert_ne by assumption. apply lookup_insert_eq.
  - apply elements_at_Some. simpl. rewrite lookup_insert_ne by congruence.
    apply lookup_insert_eq.
  - apply cart_at_Some. simpl. apply lookup_insert_eq.
Qed.

(** X14: [checkout] raises "Cart is empty" and changes nothing, without
    calling [create_order], when the account has no cart and also when
    it has a cart that is false in a condition. *)
Theorem checkout_without_true_cart (pm : PaymentMethod) (w : User.World) :
  (User._cart (User.self w) = None
   \/ exists l c, User._cart (User.self w) = Some l
                  /\ cart_at l w = Some c /\ ShoppingCart_bool c = false) ->
  User.checkout pm w = (w, Raise (ValueError "Cart is empty")).
Proof.
  unfold User.checkout, bind, User.get_self.
  intros [-> | (l & c & -> & Hc & Hb)]; [reflexivity|].
  apply cart_at_Some in Hc. unfold User.load_cart. rewrite Hc, Hb. reflexivity.
Qed.

(** X15: the first [add_to_cart] makes the cart before it calls
    [add_item]: the account has a cart at a new address afterwards, also
    when [add_item] raises, and the cart is what [add_item] left of a new
    cart. *)
Theorem first_add_to_cart (candy : loc) (quantity : Z) (w : User.World) :
  User._cart (User.self w) = None ->
  let l := fresh (dom (User.heap w)) in
  let r := add_item candy quantity ShoppingCart_new in
  User.heap w !! l = None
  /\ User.add_to_cart candy quantity w
     = (User.mkWorld (<[l := OCart (fst r)]> (User.heap w))
                     (User.set_cart (Some l) (User.self w)),
        raised (snd r)).
Proof.
  intros Hnone l r. split; [apply fresh_not_allocated|].
  unfold User.add_to_cart, bind at 1, User._ensure_cart, bind at 1, User.get_self.
  rewrite Hnone, new_cart_unfold. cbv zeta. fold l.
  rewrite (call_cart_cases l _ _ ShoppingCart_new) by (simpl; apply lookup_insert_eq).
  fold r. simpl. rewrite insert_insert_eq. reflexivity.
Qed.

(** X16: with a cart in place that is true in a condition,
    [add_to_cart] calls [add_item] on that cart and changes nothing
    else: the cart is what [add_item] left, also when [add_item] raises,
    and the exception is the one [add_to_cart] raises. *)
Theorem add_to_cart_on_existing_cart (candy : loc) (quantity : Z) (w : User.World)
    (l : loc) (c : ShoppingCart) :
  User._cart (User.self w) = Some l ->
  cart_at l w = Some c ->
  ShoppingCart_bool c = true ->
  let r := add_item candy quantity c in
  User.add_to_cart candy quantity w
  = (User.mkWorld (<[l := OCart (fst r)]> (User.heap w)) (User.self w),
     raised (snd r)).
Proof.
  intros Hl Hc Hb r. apply cart_at_Some in Hc.
  unfold User.add_to_cart, bind at 1, User._ensure_cart, bind at 1, User.get_self.
  rewrite Hl. unfold bind at 1, User.load_cart. rewrite Hc, Hb.
  apply call_cart_cases, Hc.
Qed.

(** X17: a cart that is false in a condition is not reused.
    [add_to_cart] then makes a new cart at a new address and adds to it;
    the old cart stays in the store as it was, and [_cart] no longer
    refers to it. *)
Theorem false_cart_is_replaced (candy : loc) (quantity : Z) (w : User.World)
    (l0 : loc) (c0 : ShoppingCart) :
  User._cart (User.self w) = Some l0 ->
  cart_at l0 w = Some c0 ->
  ShoppingCart_bool c0 = false ->
  let w' := fst (User.add_to_cart candy quantity w) in
  let l := fresh (dom (User.heap w)) in
  l <> l0
  /\ User._cart (User.self w') = Some l
  /\ cart_at l w' = Some (fst (add_item candy quantity ShoppingCart_new))
  /\ cart_at l0 w' = Some c0.
Proof.
  intros Hl0 Hc0 Hb w' l. apply cart_at_Some in Hc0.
  assert (l <> l0) as Hne.
  { intros Heq. pose proof (fresh_not_allocated (User.heap w)) as Hf.
    fold l in Hf. congruence. }
  assert (w' = User.mkWorld
                 (<[l := OCart (fst (add_item candy quantity ShoppingCart_new))]>
                    (<[l := OCart ShoppingCart_new]> (User.heap w)))
                 (User.set_cart (Some l) (User.self w))) as ->.
  { unfold w', User.add_to_cart, bind at 1, User._ensure_cart, bind at 1, User.get_self.
    rewrite Hl0. unfold bind at 1, User.load_cart. rewrite Hc0, Hb.
    rewrite new_cart_unfold. cbv zeta. fold l.
    rewrite (call_cart_cases l _ _ ShoppingCart_new) by (simpl; apply lookup_insert_eq).
    reflexivity. }
  split; [assumption|]. split; [reflexivity|]. split.
  - apply cart_at_Some. simpl. apply lookup_insert_eq.
  - apply cart_at_Some. simpl. rewrite !lookup_insert_ne by assumption. assumption.
Qed.

(** X18: [get_cart] hands out the cart itself, not a copy.  A method
    called through the reference changes the cart of the account in
    place: no object is made, [get_cart] returns the same reference
    before and after, and the cart is what the method left. *)
Theorem get_cart_is_an_alias
    (m : ShoppingCart -> ShoppingCart * (CartError + unit))
    (w : User.World) (l : loc) (c : ShoppingCart) :
  User._cart (User.self w) = Some l ->
  cart_at l w = Some c ->
  let w' := exec (CartMethod m) w in
  User.get_cart w = (w, Return (Some l))
  /\ User.get_cart w' = (w', Return (Some l))
  /\ cart_at l w' = Some (fst (m c))
  /\ dom (User.heap w') = dom (User.heap w)
  /\ snd (on_cart m w) = raised (snd (m c)).
Proof.
  intros Hl Hc w'. apply cart_at_Some in Hc.
  assert (on_cart m w
          = (User.mkWorld (<[l := OCart (fst (m c))]> (User.heap w)) (User.self w),
             raised (snd (m c)))) as Hon.
  { unfold on_cart, User.get_cart, bind at 1, User.get_self, bind at 1, ret.
    rewrite Hl. apply call_cart_cases, Hc. }
  unfold w'. cbn [exec]. rewrite Hon. simpl.
  unfold User.get_cart, bind, User.get_self, ret. simpl. rewrite Hl.
  repeat split.
  - apply cart_at_Some. simpl. apply lookup_insert_eq.
  - apply dom_insert_lookup_L. eauto.
Qed.

(** X19: a new account has no cart, no order and an unverified email,
    and its [checkout] raises "Cart is empty".  Its order list is a new
    object: the objects of the store it is made in are as they were, and
    none of them is its order list. *)
Theorem new_account (user_id : Z) (name email password : string)
    (is_active : bool) (h : gmap loc obj) :
  let w := User.__init__ user_id name email password is_active h in
  User.get_cart w = (w, Return None)
  /\ User.order_count w = (w, Return 0)
  /\ elements_at (User._orders (User.self w)) w = Some []
  /\ Person.email_verified (User.person (User.self w)) = false
  /\ User.deactivated_reason (User.self w) = None
  /\ (forall pm, User.checkout pm w = (w, Raise (ValueError "Cart is empty")))
  /\ h !! User._orders (User.self w) = None
  /\ (forall l, l <> User._orders (User.self w) -> User.heap w !! l = h !! l).
Proof.
  intros w.
  assert (elements_at (User._orders (User.self w)) w = Some []) as Hxs
    by (apply elements_at_Some; simpl; apply lookup_insert_eq).
  split; [reflexivity|].
  split; [rewrite (order_count_returns w [] Hxs); reflexivity|].
  split; [assumption|]. split; [reflexivity|]. split; [reflexivity|].
  split; [reflexivity|]. split; [apply fresh_not_allocated|].
  intros l Hne. simpl. apply lookup_insert_ne. simpl in Hne. congruence.
Qed.

End History.

(** ** Inventory updates *)

Section InventoryUpdates.
Context `{Collaborators}.

(** X20: an inventory update with a quantity that is not negative
    changes the attribute [quantity] of that candy and nothing else: the
    other attributes of the candy and all other objects are as before.
    A later update overrides it, and a later update with a negative
    quantity leaves it in place. *)
Theorem update_inventory_frame (self : Staff.t) (candy : loc) (n : Z)
    (h : gmap loc obj) (attrs : gmap string pyval) :
  h !! candy = Some (OObject attrs) ->
  0 <= n ->
  let h' := fst (Staff.update_inventory self candy n h) in
  (forall l, l <> candy -> h' !! l = h !! l)
  /\ (forall a, a <> "quantity" ->
        Staff.getattr candy a h' = Staff.getattr candy a h)
  /\ (forall n2, 0 <= n2 ->
        fst (Staff.update_inventory self candy n2 h')
        = fst (Staff.update_inventory self candy n2 h))
  /\ (forall n2, n2 < 0 ->
        Staff.update_inventory self candy n2 h'
        = (h', Raise (ValueError "Quantity cannot be negative"))).
Proof.
  intros Hcandy Hn h'.
  assert (forall k g atts, g !! candy = Some (OObject atts) -> 0 <= k ->
            Staff.update_inventory self candy k g
            = (<[candy := OObject (<["quantity" := PyInt k]> atts)]> g, Return tt)) as Hup.
  { intros k g atts Hg Hk. unfold Staff.update_inventory, Staff.setattr.
    destruct (Z.ltb_spec k 0); [lia|]. rewrite Hg. reflexivity. }
  unfold h'. rewrite (Hup n h attrs Hcandy Hn). simpl.
  split; [|split; [|split]].
  - intros l Hne. apply lookup_insert_ne. congruence.
  - intros a Ha. unfold Staff.getattr. rewrite lookup_insert_eq, Hcandy.
    apply lookup_insert_ne. congruence.
  - intros n2 Hn2. rewrite (Hup n2 h attrs Hcandy Hn2).
    erewrite Hup; [|apply lookup_insert_eq|assumption]. simpl.
    rewrite !insert_insert_eq. reflexivity.
  - intros n2 Hn2. unfold Staff.update_inventory.
    destruct (Z.ltb_spec n2 0); [reflexivity|lia].
Qed.

End InventoryUpdates.

(** ** Concrete runs of the further properties *)

Section MoreConcrete.
Local Abbreviation C := SpecCart.collaborators.
Local Abbreviation L := OtherCarts.with_len.
Local Abbreviation F := OtherCarts.failing_clear.

Lemma change_password_login_ascii_witness :
  (User.is_active (User.self (@alice C "secret123")) = true
   /\ isascii "s3cret" = true
   /\ @User.change_password C "secret123" "s3cret" (@alice C "secret123")
      = (@alice C "s3cret", Return true))
  /\ @User.login C "a@x.com" "s3cret" (@alice C "s3cret") = (@alice C "s3cret", Return true)
  /\ forall c, isascii c = true -> c <> "s3cret" ->
       @User.login C "a@x.com" c (@alice C "s3cret") = (@alice C "s3cret", Return false).
Proof.
  split; [repeat split|].
  apply (@change_password_login_ascii C "secret123" "s3cret"
           (@alice C "secret123") (@alice C "s3cret")); reflexivity.
Defined.

Lemma deactivated_forever_witness :
  let w := fst (@User.deactivate C (Some "fraud") (@alice C "secret123")) in
  let cs := [@AddToCart C 7 1; VerifyEmail; ChangePassword "secret123" "new"] in
  User.is_active (User.self w) = false
  /\ User.is_active (User.self (run cs w)) = false
  /\ forall email password,
       User.login email password (run cs w) = (run cs w, Return false).
Proof.
  intros w cs. split; [reflexivity|].
  apply (@deactivated_forever C cs w). reflexivity.
Defined.

Lemma non_ascii_password_locks_witness :
  let w := @alice C cafe in
  let cs := [@ChangePassword C cafe "new"; Login "a@x.com" cafe] in
  isascii (User._password (User.self w)) = false
  /\ User._password (User.self (run cs w)) = User._password (User.self w)
  /\ (forall old_password new_password,
        exists msg,
          User.change_password old_password new_password (run cs w)
          = (run cs w, Raise (TypeError msg)))
  /\ (forall email password,
        snd (User.login email password (run cs w)) <> Return true).
Proof.
  intros w cs. split; [reflexivity|].
  apply (@non_ascii_password_locks C cs w). reflexivity.
Defined.

Lemma history_is_append_only_witness :
  let cs := [@Checkout C "card"; @Checkout C "cash"; GetOrders] in
  elements_at (User._orders (User.self alice_shopping)) alice_shopping = Some []
  /\ exists ys : list SpecCart.order,
    elements_at (User._orders (User.self (run cs alice_shopping))) (run cs alice_shopping)
      = Some ([] ++ ys)
    /\ (length ys <= checkouts cs)%nat
    /\ snd (User.order_count (run cs alice_shopping))
       = Return (Z.of_nat (length (@nil SpecCart.order)) + Z.of_nat (length ys)).
Proof.
  intros cs. split; [reflexivity|].
  apply (@history_is_append_only C cs alice_shopping []). reflexivity.
Defined.

Lemma calls_leave_other_objects_witness :
  let w := @User.__init__ C 1 "a" "a@x.com" "secret123" true fudge in
  let cs := [@AddToCart C 5 1; @Checkout C "card"; GetOrders] in
  foreign 5%positive w
  /\ User.heap (run cs w) !! 5%positive = User.heap w !! 5%positive
  /\ foreign 5%positive (run cs w).
Proof.
  intros w cs.
  assert (foreign 5%positive w) as Hf.
  { split; [|split]; [vm_compute; eauto | vm_compute; discriminate | discriminate]. }
  split; [exact Hf|]. apply (@calls_leave_other_objects C cs 5%positive w Hf).
Defined.

Lemma checkout_create_order_raises_witness :
  let w' := User.mkWorld (<[2%positive := @OCart C []]> (User.heap alice_served))
                         (User.self alice_served) in
  (User._cart (User.self alice_served) = Some 2%positive
   /\ cart_at 2%positive alice_served = Some []
   /\ @create_order C "card" [] = ([], inl SpecCart.EmptyCartOrder))
  /\ @User.checkout C "card" alice_served = (w', Raise (@Propagated C SpecCart.EmptyCartOrder))
  /\ cart_at 2%positive w' = Some []
  /\ elements_at (User._orders (User.self w')) w'
     = Some [SpecCart.mkOrder [(7%positive, 2)] "card"].
Proof.
  intros w'. split; [repeat split|].
  apply (@checkout_create_order_raises C "card" alice_served 2%positive [] []
           SpecCart.EmptyCartOrder [SpecCart.mkOrder [(7%positive, 2)] "card"]);
    reflexivity.
Defined.

Lemma checkout_clear_raises_witness :
  let w := @exec F (@AddToCart F 7 2) (@alice F "secret123") in
  let o := SpecCart.mkOrder [(7%positive, 2)] "card" in
  (User._cart (User.self w) = Some 2%positive
   /\ cart_at 2%positive w = Some [(7%positive, 2)]
   /\ @clear F [(7%positive, 2)] = ([(7%positive, 2)], inl SpecCart.InvalidQuantity))
  /\ exists w' : @User.World F,
    @User.checkout F "card" w = (w', Raise (@Propagated F SpecCart.InvalidQuantity))
    /\ elements_at (User._orders (User.self w')) w' = Some ([] ++ [o])
    /\ cart_at 2%positive w' = Some [(7%positive, 2)].
Proof.
  intros w o. split; [repeat split|].
  apply (@checkout_clear_raises F "card" w 2%positive [(7%positive, 2)]
           [(7%positive, 2)] [(7%positive, 2)] o SpecCart.InvalidQuantity []);
    reflexivity.
Defined.

Lemma checkout_without_true_cart_witness :
  let w := @exec L (@AddToCart L 7 0) (@alice L "secret123") in
  (exists l c, User._cart (User.self w) = Some l
               /\ cart_at l w = Some c /\ @ShoppingCart_bool L c = false)
  /\ @User.checkout L "card" w = (w, Raise (ValueError "Cart is empty")).
Proof.
  intros w.
  assert (exists l c, User._cart (User.self w) = Some l
                      /\ cart_at l w = Some c /\ @ShoppingCart_bool L c = false) as Hw
    by (exists 2%positive, []; repeat split).
  split; [exact Hw|].
  apply (@checkout_without_true_cart L "card" w). right. exact Hw.
Defined.

Lemma first_add_to_cart_witness :
  let w := @alice C "secret123" in
  let l := fresh (dom (User.heap w)) in
  let r := @add_item C 7%positive 0 (@ShoppingCart_new C) in
  User._cart (User.self w) = None
  /\ User.heap w !! l = None
  /\ @User.add_to_cart C 7%positive 0 w
     = (User.mkWorld (<[l := OCart (fst r)]> (User.heap w))
                     (User.set_cart (Some l) (User.self w)),
        raised (snd r)).
Proof.
  intros w l r. split; [reflexivity|].
  apply (@first_add_to_cart C 7%positive 0 w). reflexivity.
Defined.

Lemma add_to_cart_on_existing_cart_witness :
  let r := @add_item C 8%positive 0 [(7%positive, 2)] in
  (User._cart (User.self alice_shopping) = Some 2%positive
   /\ cart_at 2%positive alice_shopping = Some [(7%positive, 2)]
   /\ @ShoppingCart_bool C [(7%positive, 2)] = true)
  /\ @User.add_to_cart C 8%positive 0 alice_shopping
     = (User.mkWorld (<[2%positive := OCart (fst r)]> (User.heap alice_shopping))
                     (User.self alice_shopping),
        raised (snd r)).
Proof.
  intros r. split; [repeat split|].
  apply (@add_to_cart_on_existing_cart C 8%positive 0 alice_shopping 2%positive
           [(7%positive, 2)]); reflexivity.
Defined.

Lemma false_cart_is_replaced_witness :
  let w := @exec L (@AddToCart L 7 0) (@alice L "secret123") in
  let w' := fst (@User.add_to_cart L 8 3 w) in
  (User._cart (User.self w) = Some 2%positive
   /\ cart_at 2%positive w = Some []
   /\ @ShoppingCart_bool L [] = false)
  /\ fresh (dom (User.heap w)) <> 2%positive
  /\ User._cart (User.self w') = Some (fresh (dom (User.heap w)))
  /\ cart_at (fresh (dom (User.heap w))) w'
     = Some (fst (@add_item L 8%positive 3 (@ShoppingCart_new L)))
  /\ cart_at 2%positive w' = Some [].
Proof.
  intros w w'. split; [repeat split|].
  apply (@false_cart_is_replaced L 8%positive 3 w 2%positive []); reflexivity.
Defined.

Lemma get_cart_is_an_alias_witness :
  let w' := @exec C (CartMethod (@clear C)) alice_shopping in
  (User._cart (User.self alice_shopping) = Some 2%positive
   /\ cart_at 2%positive alice_shopping = Some [(7%positive, 2)])
  /\ @User.get_cart C alice_shopping = (alice_shopping, Return (Some 2%positive))
  /\ @User.get_cart C w' = (w', Return (Some 2%positive))
  /\ cart_at 2%positive w' = Some (fst (@clear C [(7%positive, 2)]))
  /\ dom (User.heap w') = dom (User.heap alice_shopping)
  /\ snd (on_cart (@clear C) alice_shopping) = raised (snd (@clear C [(7%positive, 2)])).
Proof.
  intros w'. split; [repeat split|].
  apply (@get_cart_is_an_alias C (@clear C) alice_shopping 2%positive [(7%positive, 2)]);
    reflexivity.
Defined.

Lemma update_inventory_frame_witness :
  let attrs : gmap string pyval := {[ "name" := PyStr "fudge"; "quantity" := PyInt 3 ]} in
  let h' := fst (@Staff.update_inventory C bob 5%positive 10 candy_store) in
  (candy_store !! 5%positive = Some (@OObject C attrs) /\ 0 <= 10)
  /\ (forall l, l <> 5%positive -> h' !! l = candy_store !! l)
  /\ (forall a, a <> "quantity" ->
        Staff.getattr 5%positive a h' = Staff.getattr 5%positive a candy_store)
  /\ (forall n2, 0 <= n2 ->
        fst (@Staff.update_inventory C bob 5%positive n2 h')
        = fst (@Staff.update_inventory C bob 5%positive n2 candy_store))
  /\ (forall n2, n2 < 0 ->
        @Staff.update_inventory C bob 5%positive n2 h'
        = (h', Raise (ValueError "Quantity cannot be negative"))).
Proof.
  intros attrs h'. split; [split; [vm_compute; reflexivity | lia]|].
  apply (@update_inventory_frame C bob 5%positive 10 candy_store attrs);
    [vm_compute; reflexivity | lia].
Defined.

End MoreConcrete.
